(** * turf: point-in-polygon test and grid-based shortest path

    A shallow embedding of
      - [src/lib/inside.js]                        (module [Inside])
      - [src/packages/turf-shortest-path/index.js] (modules [ShortestPath]
                                                    and [Full])

    Numbers.  JavaScript numbers are modelled as exact rationals [Q].  A
    division whose divisor is zero has no rational result (JavaScript
    continues with an infinity or NaN); the model records it as the
    separate fault [DivByZero].  A run in binary64 rounds where the
    model does not.  What is stated of the nodes of the grid is
    therefore kept to what rounding leaves alone: the comparisons the
    code makes and the values its loop variables hold, one step after
    the other, not closed forms of their sums and quotients.  Module
    [Binary64] evaluates lines 79-85 and the headers of the two loops
    in the arithmetic of the program, to count the nodes of a run.

    Collaborators.  [ShortestPath] reads from [Env] what each required
    module returns.  [Full] is the same query where, besides, every
    call of a required module may throw and an argument may be any
    value; with calls that return and arguments that are GeoJSON
    objects the two agree (lemma [shortestPath_quiet]). *)

From Stdlib Require Import QArith Qround Lqa Lia ZArith List String Bool.
From Stdlib Require PrimFloat.
Import ListNotations.
Local Open Scope string_scope.
Local Open Scope list_scope.
Local Open Scope Q_scope.
Set Warnings "-register-all".

(** [a > b] and [a < b] on JavaScript numbers. *)
Definition Qgtb (a b : Q) : bool := negb (Qle_bool a b).
Definition Qltb (a b : Q) : bool := negb (Qle_bool b a).

(** A coordinate array [[x, y]]. *)
Definition Position : Type := (Q * Q)%type.

(* ===================================================================== *)
(** * src/lib/inside.js *)
(* ===================================================================== *)

Module Inside.

(** What a run of the function can be observed to do besides returning:
    the lines it prints and the divisions it evaluates. *)
Inductive printed : Type :=
| PText (s : string)
| PNumber (n : nat)
| PBoolean (b : bool).

Inductive event : Type :=
| ConsoleLog (v : printed)
| Division (dividend divisor : Q).

Inductive fault : Type :=
| TypeError      (* a property of [undefined] was read *)
| DivByZero.     (* [/] evaluated with a zero divisor *)

(** A computation: the events so far and either a value or the fault
    that stopped the run. *)
Definition M (A : Type) : Type := (list event * (A + fault))%type.

Definition ret {A} (a : A) : M A := ([], inl a).
Definition fail {A} (f : fault) : M A := ([], inr f).
Definition bind {A B} (m : M A) (k : A -> M B) : M B :=
  match m with
  | (t, inl a) => let (t', r) := k a in (t ++ t', r)
  | (t, inr f) => (t, inr f)
  end.

Notation "x <- m ;; k" := (bind m (fun x => k))
  (at level 61, m at next level, right associativity).
Notation "m ;;; k" := (bind m (fun _ => k))
  (at level 61, right associativity).

Definition console_log (v : printed) : M unit := ([ConsoleLog v], inl tt).

(** [a / b] *)
Definition divide (a b : Q) : M Q :=
  ([Division a b], if Qeq_bool b 0 then inr DivByZero else inl (a / b)).

(** [ring[i]]: reading a coordinate of a missing vertex is a TypeError. *)
Definition vertex (ring : list Position) (i : nat) : M Position :=
  match nth_error ring i with
  | Some v => ret v
  | None => fail TypeError
  end.

(** The condition of lines 15-18 and 19-22, with [&&] short-circuiting:
<<
    ((ring[i][1] > y) != (ring[j][1] > y)) &&
    (x < (ring[j][0] - ring[i][0]) * (y - ring[i][1])
           / (ring[j][1] - ring[i][1]) + ring[i][0])
>> *)
Definition crosses (x y : Q) (ring : list Position) (i j : nat) : M bool :=
  vi <- vertex ring i ;;
  vj <- vertex ring j ;;
  if negb (Bool.eqb (Qgtb (snd vi) y) (Qgtb (snd vj) y))
  then q <- divide ((fst vj - fst vi) * (y - snd vi)) (snd vj - snd vi) ;;
       ret (Qltb x (q + fst vi))
  else ret false.

(** The body of [for (var i=0;i<polyLength;i++)], run [n] more times
    from the loop state [(i, j, isInside)]. *)
Fixpoint loop (n : nat) (x y : Q) (ring : list Position)
    (polyLength i j : nat) (isInside : bool) : M bool :=
  match n with
  | O => ret isInside
  | S n' =>
      console_log (PText "checking") ;;;
      console_log (PNumber polyLength) ;;;
      c <- crosses x y ring i j ;;
      console_log (PBoolean c) ;;;
      c' <- crosses x y ring i j ;;
      if c'
      then console_log (PBoolean (negb isInside)) ;;;
           loop n' x y ring polyLength (S i) i (negb isInside)   (* j = i *)
      else loop n' x y ring polyLength (S i) j isInside
  end.

(** [polygon.geometry.coordinates] and [point.geometry.coordinates]. *)
Record Polygon : Type := { polygon_coordinates : list (list Position) }.
Record Point : Type := { point_coordinates : Position }.

(** [module.exports = function(point, polygon, done)] *)
Definition inside {R} (point : Point) (polygon : Polygon)
    (done : option fault -> bool -> R) : M R :=
  match nth_error (polygon_coordinates polygon) 0 with
  | None => fail TypeError                    (* coordinates[0].length *)
  | Some ring =>
      let polyLength := List.length ring in
      let x := fst (point_coordinates point) in
      let y := snd (point_coordinates point) in
      let i := 0%nat in
      let j := (polyLength - 1)%nat in
      let isInside := false in
      r <- loop (polyLength - i) x y ring polyLength i j isInside ;;
      ret (done None r)
  end.

(** The hit tester of the specification, [classify(point, ring)]: the
    value [inside] hands to its callback. *)
Definition classify (p : Position) (ring : list Position) : bool + fault :=
  snd (inside {| point_coordinates := p |}
              {| polygon_coordinates := [ring] |} (fun _ b => b)).

Definition trace (p : Position) (ring : list Position) : list event :=
  fst (inside {| point_coordinates := p |}
              {| polygon_coordinates := [ring] |} (fun _ b => b)).

(** The divisors of the divisions in a trace. *)
Fixpoint divisors (t : list event) : list Q :=
  match t with
  | [] => []
  | Division _ d :: t' => d :: divisors t'
  | ConsoleLog _ :: t' => divisors t'
  end.

(** A computation is safe when it ends with a value and every division
    it evaluated had a non-zero divisor. *)
Definition nonzero (d : Q) : Prop := ~ d == 0.

Definition safe {A} (m : M A) : Prop :=
  (exists a, snd m = inl a) /\ Forall nonzero (divisors (fst m)).

(** The value of the toggle condition and of the loop, without their
    effects: what [crosses] and [loop] compute when every vertex they
    read exists. *)
Definition toggle (x y : Q) (vi vj : Position) : bool :=
  negb (Bool.eqb (Qgtb (snd vi) y) (Qgtb (snd vj) y)) &&
  Qltb x ((fst vj - fst vi) * (y - snd vi) / (snd vj - snd vi) + fst vi).

Fixpoint walk (n : nat) (x y : Q) (ring : list Position)
    (i j : nat) (isInside : bool) : bool :=
  match n with
  | O => isInside
  | S n' =>
      if toggle x y (nth i ring (0, 0)) (nth j ring (0, 0))
      then walk n' x y ring (S i) i (negb isInside)
      else walk n' x y ring (S i) j isInside
  end.

(** ** The textbook even-odd test, after the specification

    "iterate edges (ring[i], ring[j]) for i over all vertices and j the
    previous vertex", with the previous-vertex index advanced on every
    iteration ([j = i] after each edge, [j] initially the last vertex).
    It differs from [loop] in the place of [j = i] only. *)
Fixpoint textbook_loop (n : nat) (x y : Q) (ring : list Position)
    (i j : nat) (isInside : bool) : M bool :=
  match n with
  | O => ret isInside
  | S n' =>
      c <- crosses x y ring i j ;;
      textbook_loop n' x y ring (S i) i (if c then negb isInside else isInside)
  end.

Definition classify_textbook (p : Position) (ring : list Position)
    : bool + fault :=
  let polyLength := List.length ring in
  snd (textbook_loop polyLength (fst p) (snd p) ring 0 (polyLength - 1) false).

End Inside.


(* ===================================================================== *)
(** * src/packages/turf-shortest-path/index.js *)
(* ===================================================================== *)

Module ShortestPath.

(** ** GeoJSON values *)

Inductive Geometry : Type :=
| GPoint (coordinates : Position)
| GLineString (coordinates : list Position)
| GPolygon (coordinates : list (list Position)).

Inductive GeoJSON : Type :=
| Feature (geometry : Geometry)          (* {type: 'Feature', geometry} *)
| Geom (g : Geometry)                    (* a bare geometry object *)
| FeatureCollection (features : list GeoJSON).

Definition geometry_type (g : Geometry) : string :=
  match g with
  | GPoint _ => "Point"
  | GLineString _ => "LineString"
  | GPolygon _ => "Polygon"
  end.

(** [helpers.point] and [helpers.lineString] wrap coordinates in a
    feature. *)
Definition point (c : Position) : GeoJSON := Feature (GPoint c).
Definition lineString (cs : list Position) : GeoJSON :=
  Feature (GLineString cs).

(** [[west, south, east, north]], read as [box[0]] .. [box[3]]. *)
Record BBox : Type := mkBBox { box0 : Q; box1 : Q; box2 : Q; box3 : Q }.

(** ** Option values

    The primitive values [options.resolution] can hold.  [VNumber] is a
    finite number. *)
Inductive value : Type :=
| VUndefined
| VNull
| VBoolean (b : bool)
| VNumber (q : Q)
| VNaN
| VString (s : string).

Record Options : Type :=
  { units : option string; resolution : value }.

(** [{}] *)
Definition no_options : Options :=
  {| units := None; resolution := VUndefined |}.

(** [options || {}] *)
Definition given (options : option Options) : Options :=
  match options with Some o => o | None => no_options end.

(** ToBoolean *)
Definition truthy (v : value) : bool :=
  match v with
  | VUndefined | VNull | VNaN => false
  | VBoolean b => b
  | VNumber q => negb (Qeq_bool q 0)
  | VString s => negb (String.eqb s "")
  end.

(** ** The search library's data *)

Record GridNode : Type := { x : nat; y : nat; weight : nat }.
Record Graph : Type := { grid : list (list GridNode) }.

(** ** The required modules

    What [index.js] obtains through [require], the collaborators whose
    code is outside [src/]; and the conversion of a string to a number,
    which the model leaves to its environment as well. *)
Record Env : Type := {
  bbox : GeoJSON -> BBox;                               (* @turf/bbox *)
  scale : GeoJSON -> Q -> GeoJSON;           (* @turf/transform-scale *)
  inside : GeoJSON -> GeoJSON -> bool;                (* @turf/inside *)
  distance : GeoJSON + Position -> GeoJSON + Position ->
             option string -> Q;                    (* @turf/distance *)
  getCoord : GeoJSON -> Position;                   (* invariant.getCoord *)
  cleanCoords : GeoJSON -> GeoJSON;              (* @turf/clean-coords *)
  bboxPolygon : BBox -> GeoJSON;                 (* @turf/bbox-polygon *)
  isNumber : value -> bool;                        (* helpers.isNumber *)
  stringToNumber : string -> option Q;   (* ToNumber on strings; None: NaN *)
  newGraph : list (list nat) -> bool -> Graph; (* new Graph(m, {diagonal}) *)
  astar_search : Graph -> option GridNode -> option GridNode ->
                 list GridNode                        (* astar.search *)
}.

(** ToNumber; [None] is NaN. *)
Definition toNumber (E : Env) (v : value) : option Q :=
  match v with
  | VUndefined | VNaN => None
  | VNull => Some 0
  | VBoolean b => Some (if b then 1 else 0)
  | VNumber q => Some q
  | VString s => stringToNumber E s
  end.

(** [v <= 0] *)
Definition le0 (E : Env) (v : value) : bool :=
  match toNumber E v with
  | Some q => Qle_bool q 0
  | None => false
  end.

(** ** Outcomes *)

Inductive exn : Type :=
| Error (message : string)           (* throw new Error(message) *)
| TypeError (reading : string).      (* a property of undefined was read *)

Inductive result (A : Type) : Type :=
| Returned (a : A)
| Thrown (e : exn)
| NonFinite        (* a division by zero or NaN operand: outside [Q] *)
| OutOfFuel.       (* a loop ran longer than the fuel given *)
Arguments Returned {A} a.
Arguments Thrown {A} e.
Arguments NonFinite {A}.
Arguments OutOfFuel {A}.

Definition rbind {A B} (r : result A) (k : A -> result B) : result B :=
  match r with
  | Returned a => k a
  | Thrown e => Thrown e
  | NonFinite => NonFinite
  | OutOfFuel => OutOfFuel
  end.

Notation "x <~ r ;; k" := (rbind r (fun x => k))
  (at level 61, r at next level, right associativity).

(** [a / b] *)
Definition jsdiv (a b : Q) : result Q :=
  if Qeq_bool b 0 then NonFinite else Returned (a / b).

(** ** The caller's obstacle object

    [collection = obstacles] is an alias, and [push]/[pop] on
    [collection.features] write into the caller's object.  The state
    threaded through a query is that object ([None] when the argument is
    absent). *)
Definition Store : Type := option GeoJSON.
Definition M (A : Type) : Type := Store -> result A * Store.

Definition ret {A} (a : A) : M A := fun st => (Returned a, st).
Definition throw {A} (e : exn) : M A := fun st => (Thrown e, st).
Definition lift {A} (r : result A) : M A := fun st => (r, st).
Definition bind {A B} (m : M A) (k : A -> M B) : M B :=
  fun st =>
    match m st with
    | (Returned a, st') => k a st'
    | (Thrown e, st') => (Thrown e, st')
    | (NonFinite, st') => (NonFinite, st')
    | (OutOfFuel, st') => (OutOfFuel, st')
    end.

Notation "x <- m ;; k" := (bind m (fun x => k))
  (at level 61, m at next level, right associativity).
Notation "m ;;; k" := (bind m (fun _ => k))
  (at level 61, right associativity).

(** [obstacles] *)
Definition get_obstacles : M (option GeoJSON) := fun st => (Returned st, st).

(** [obstacles.features] *)
Definition get_features : M (list GeoJSON) :=
  fun st =>
    match st with
    | Some (FeatureCollection fs) => (Returned fs, st)
    | _ => (Thrown (TypeError "obstacles.features"), st)
    end.

(** [collection.features.push(f)] *)
Definition features_push (f : GeoJSON) : M unit :=
  fun st =>
    match st with
    | Some (FeatureCollection fs) =>
        (Returned tt, Some (FeatureCollection (fs ++ [f])))
    | _ => (Thrown (TypeError "collection.features"), st)
    end.

(** [collection.features.pop()] *)
Definition features_pop : M unit :=
  fun st =>
    match st with
    | Some (FeatureCollection fs) =>
        (Returned tt, Some (FeatureCollection (removelast fs)))
    | _ => (Thrown (TypeError "collection.features"), st)
    end.

(** ** getType (lines 184-191)

    Every value of [GeoJSON] carries a type, so the final
    [throw ... ' is invalid'] has no input here. *)
Definition getType (geojson : option GeoJSON) (name : option string)
    : M string :=
  match geojson with
  | None =>
      throw (Error (String.append
                      (match name with Some n => n | None => "geojson" end)
                      " is required"))
  | Some (Feature g) => ret (geometry_type g)
  | Some (Geom g) => ret (geometry_type g)
  | Some (FeatureCollection _) => ret "FeatureCollection"
  end.

(** ** isInside (lines 174-181) *)
Fixpoint isInside (E : Env) (pt : GeoJSON) (features : list GeoJSON) : bool :=
  match features with
  | [] => false
  | f :: rest => if inside E pt f then true else isInside E pt rest
  end.

(** ** The grid pass (lines 79-132) *)

(** [{x: c, y: r}] *)
Record Closest : Type := { cx : nat; cy : nat }.

(** The variables the two loops update.  [closestToStart] starts as
    [[]], whose [x] and [y] are undefined: [None].  [minDistStart]
    starts as [Infinity]: [None].  An entry of [pointMatrix] is the
    string [currentX + '|' + currentY], kept as the two numbers it
    prints. *)
Record Scan : Type := {
  matrix : list (list nat);
  pointMatrix : list (list Position);
  closestToStart : option Closest;
  closestToEnd : option Closest;
  minDistStart : option Q;
  minDistEnd : option Q
}.

(** [d < minDist] *)
Definition below (d : Q) (minDist : option Q) : bool :=
  match minDist with
  | None => true
  | Some m => Qltb d m
  end.

Section GridPass.
Variable E : Env.
Variables start end_ : GeoJSON.
Variable polygons : list GeoJSON.        (* obstacles.features *)
Variables east south cellWidth cellHeight : Q.

(** The body of the inner loop (lines 105-124) at the node of column
    [c] in row [r]. *)
Definition visit (currentX currentY : Q) (c r : nat)
    (s : Scan) (matrixRow : list nat) (pointMatrixRow : list Position)
    : Scan * list nat * list Position :=
  let pt := point (currentX, currentY) in
  let isInsideObstacle := isInside E pt polygons in
  (* feed obstacles matrix *)
  let matrixRow := matrixRow ++ [if isInsideObstacle then 0 else 1]%nat in
  (* map point's coords *)
  let pointMatrixRow := pointMatrixRow ++ [(currentX, currentY)] in
  (* set closest points *)
  let distStart := distance E (inl pt) (inl start) None in
  let s :=
    if negb isInsideObstacle && below distStart (minDistStart s)
    then {| matrix := matrix s; pointMatrix := pointMatrix s;
            closestToStart := Some {| cx := c; cy := r |};
            closestToEnd := closestToEnd s;
            minDistStart := Some distStart;
            minDistEnd := minDistEnd s |}
    else s in
  let distEnd := distance E (inl pt) (inl end_) None in
  let s :=
    if negb isInsideObstacle && below distEnd (minDistEnd s)
    then {| matrix := matrix s; pointMatrix := pointMatrix s;
            closestToStart := closestToStart s;
            closestToEnd := Some {| cx := c; cy := r |};
            minDistStart := minDistStart s;
            minDistEnd := Some distEnd |}
    else s in
  (s, matrixRow, pointMatrixRow).

(** [while (currentX <= east) { ... }] of row [r] (lines 104-127). *)
Fixpoint scanRow (fuel : nat) (currentX currentY : Q) (c r : nat)
    (s : Scan) (matrixRow : list nat) (pointMatrixRow : list Position)
    : result (Scan * list nat * list Position) :=
  if Qle_bool currentX east then
    match fuel with
    | O => OutOfFuel
    | S fuel' =>
        let '(s, matrixRow, pointMatrixRow) :=
          visit currentX currentY c r s matrixRow pointMatrixRow in
        scanRow fuel' (currentX + cellWidth) currentY (S c) r
                s matrixRow pointMatrixRow
    end
  else Returned (s, matrixRow, pointMatrixRow).

(** [while (currentY >= south) { ... }] (lines 98-132). *)
Fixpoint scanRows (fuel : nat) (startX currentY : Q) (r : nat) (s : Scan)
    : result Scan :=
  if Qle_bool south currentY then
    match fuel with
    | O => OutOfFuel
    | S fuel' =>
        row <~ scanRow fuel startX currentY 0 r s [] [] ;;
        let '(s, matrixRow, pointMatrixRow) := row in
        let s := {| matrix := matrix s ++ [matrixRow];
                    pointMatrix := pointMatrix s ++ [pointMatrixRow];
                    closestToStart := closestToStart s;
                    closestToEnd := closestToEnd s;
                    minDistStart := minDistStart s;
                    minDistEnd := minDistEnd s |} in
        scanRows fuel' startX (currentY - cellHeight) (S r) s
    end
  else Returned s.

End GridPass.

(** [Math.floor(a / b)] *)
Definition floor_div (a b : Q) : result Z :=
  q <~ jsdiv a b ;; Returned (Qfloor q).

(** Lines 79-132: the grid's geometry from the box and the cell size,
    then the single pass. *)
Definition gridPass (E : Env) (fuel : nat) (start end_ : GeoJSON)
    (polygons : list GeoJSON) (box : BBox) (cellWidth cellHeight : Q)
    : result Scan :=
  let west := box0 box in
  let south := box1 box in
  let east := box2 box in
  let north := box3 box in
  let bboxHorizontalSide := east - west in
  let bboxVerticalSide := north - south in
  columns <~ floor_div bboxHorizontalSide cellWidth ;;
  rows <~ floor_div bboxVerticalSide cellHeight ;;
  (* adjust origin of the grid *)
  let deltaX := (bboxHorizontalSide - inject_Z columns * cellWidth) / 2 in
  let deltaY := (bboxVerticalSide - inject_Z rows * cellHeight) / 2 in
  scanRows E start end_ polygons east south cellWidth cellHeight
    fuel (west + deltaX) (north - deltaY) 0
    {| matrix := []; pointMatrix := [];
       closestToStart := None; closestToEnd := None;
       minDistStart := None; minDistEnd := None |}.

(** [graph.grid[closest.y][closest.x]] (lines 138-139).  With [closest]
    unset, [graph.grid[undefined]] is undefined and reading its property
    throws. *)
Definition gridAt (graph : Graph) (closest : option Closest)
    : result (option GridNode) :=
  match closest with
  | None => Thrown (TypeError "graph.grid[undefined][undefined]")
  | Some cl =>
      match nth_error (grid graph) (cy cl) with
      | None => Thrown (TypeError "graph.grid[closest.y][closest.x]")
      | Some row => Returned (nth_error row (cx cl))
      end
  end.

(** [result.forEach(...)] (lines 143-146): [split('|')] and unary [+]
    read the two numbers of the entry back. *)
Fixpoint mapResult (pointMatrix : list (list Position))
    (nodes : list GridNode) (path : list Position)
    : result (list Position) :=
  match nodes with
  | [] => Returned path
  | coord :: rest =>
      match nth_error pointMatrix (x coord) with
      | None => Thrown (TypeError "pointMatrix[coord.x][coord.y]")
      | Some row =>
          match nth_error row (y coord) with
          | None => Thrown (TypeError "pointMatrix[coord.x][coord.y].split")
          | Some coords => mapResult pointMatrix rest (path ++ [coords])
          end
      end
  end.

(** [f.geometry.coordinates] of an argument that passed the [Point]
    check of lines 45-46: a bare geometry has no [geometry] property. *)
Definition geometry_coordinates (f : GeoJSON) : result Position :=
  match f with
  | Feature (GPoint c) => Returned c
  | Feature _ => Thrown (Error "must be Point")  (* rejected at lines 45-46 *)
  | _ => Thrown (TypeError "geometry.coordinates")
  end.

(** ** Lines 69-162: from the box and the resolution to the path

    No statement after line 67 writes to an argument, so this part is a
    function of the values read: [polygons] is [obstacles.features]. *)
Definition route (E : Env) (fuel : nat) (start end_ : GeoJSON)
    (polygons : list GeoJSON) (box : BBox) (units : string)
    (resolution : value) : result GeoJSON :=
  let west := box0 box in
  let south := box1 box in
  let east := box2 box in
  let north := box3 box in
  res <~ match toNumber E resolution with
         | Some q => Returned q
         | None => NonFinite
         end ;;
  xFraction <~ jsdiv res (distance E (inl (point (west, south)))
                                   (inl (point (east, south))) (Some units)) ;;
  let cellWidth := xFraction * (east - west) in
  yFraction <~ jsdiv res (distance E (inl (point (west, south)))
                                   (inl (point (west, north))) (Some units)) ;;
  let cellHeight := yFraction * (north - south) in
  scan <~ gridPass E fuel start end_ polygons box cellWidth cellHeight ;;
  (* find path on matrix grid *)
  let graph := newGraph E (matrix scan) true in
  startOnMatrix <~ gridAt graph (closestToStart scan) ;;
  endOnMatrix <~ gridAt graph (closestToEnd scan) ;;
  let nodes := astar_search E graph startOnMatrix endOnMatrix in
  first <~ geometry_coordinates start ;;
  path <~ mapResult (pointMatrix scan) nodes [first] ;;
  last <~ geometry_coordinates end_ ;;
  Returned (cleanCoords E (lineString (path ++ [last]))).

(** [options.units || 'kilometers'] *)
Definition units_of (options : Options) : string :=
  match units options with
  | Some u => if String.eqb u "" then "kilometers" else u
  | None => "kilometers"
  end.

(** The condition of line 55:
    [resolution && !isNumber(resolution) || resolution <= 0]. *)
Definition rejected (E : Env) (resolution : value) : bool :=
  (truthy resolution && negb (isNumber E resolution)) || le0 E resolution.

(** Lines 61-65: the box and, when none is given, the resolution. *)
Definition gridBox (E : Env) (collection : GeoJSON) : BBox :=
  bbox E (scale E (bboxPolygon E (bbox E collection)) (115 # 100)).

Definition derived (E : Env) (box : BBox) (units : string)
    (resolution : value) : value :=
  if negb (truthy resolution)
  then let width := distance E (inr (box0 box, box1 box))
                               (inr (box2 box, box1 box)) (Some units) in
       VNumber (width / 100)
  else resolution.

(** ** shortestPath (lines 43-163) *)
Definition shortestPath (E : Env) (fuel : nat) (start end_ : option GeoJSON)
    (options : option Options) : M GeoJSON :=
  (* validation *)
  t <- getType start (Some "start") ;;
  if negb (String.eqb t "Point") then throw (Error "start must be Point") else
  t <- getType end_ (Some "end") ;;
  if negb (String.eqb t "Point") then throw (Error "end must be Point") else
  obstacles <- get_obstacles ;;
  bad <- match obstacles with
         | Some _ => t <- getType obstacles None ;;
                     ret (negb (String.eqb t "FeatureCollection"))
         | None => ret false
         end ;;
  if bad then throw (Error "obstacles must be FeatureCollection") else
  match start, end_ with
  | Some start, Some end_ =>
      (* no obstacles *)
      none <- match obstacles with
              | None => ret true
              | Some _ => fs <- get_features ;; ret (Nat.eqb (List.length fs) 0)
              end ;;
      if none then ret (lineString [getCoord E start; getCoord E end_]) else
      let options := given options in
      let units := units_of options in
      let resolution := resolution options in
      if rejected E resolution
      then throw (Error "resolution must be a number, greater than 0")
      else
      (* define path grid area *)
      features_push start ;;;
      features_push end_ ;;;
      collection <- get_obstacles ;;
      match collection with
      | None => throw (TypeError "collection.features")
      | Some collection =>
          let box := gridBox E collection in
          let resolution := derived E box units resolution in
          features_pop ;;;
          features_pop ;;;
          polygons <- get_features ;;
          lift (route E fuel start end_ polygons box units resolution)
      end
  | _, _ => throw (Error "start is required")   (* getType has thrown *)
  end.

(** ** Vocabulary of the statements *)

(** [g] is a Point, feature or bare geometry, at [c]. *)
Definition PointAt (g : GeoJSON) (c : Position) : Prop :=
  g = Feature (GPoint c) \/ g = Geom (GPoint c).

(** The first and the last point of a coordinate sequence. *)
Definition ends (cs : list Position) : option (Position * Position) :=
  match cs with
  | [] => None
  | c :: rest => Some (c, List.last rest c)
  end.

(** What the query relies on from [getCoord] and [cleanCoords]: the
    first unwraps a Point, the second simplifies a line between its two
    end points. *)
Definition unwraps (E : Env) : Prop :=
  forall g c, PointAt g c -> getCoord E g = c.

Definition keeps_ends (E : Env) : Prop :=
  forall cs, exists cs',
    cleanCoords E (lineString cs) = lineString cs' /\ ends cs' = ends cs.

(** Every node of the occupancy matrix is blocked. *)
Definition all_blocked (m : list (list nat)) : Prop :=
  Forall (Forall (fun w => w = 0%nat)) m.

(** Some node of the occupancy matrix is free. *)
Definition has_free (m : list (list nat)) : Prop :=
  Exists (Exists (fun w => w = 1%nat)) m.

(** A nearest node has been recorded for the start or for the end. *)
Definition found (s : Scan) : Prop :=
  closestToStart s <> None \/ closestToEnd s <> None.

(** The counts [Math.floor(bboxHorizontalSide / cellWidth)] and
    [Math.floor(bboxVerticalSide / cellHeight)] of lines 81-82. *)
Definition columns_of (box : BBox) (cellWidth : Q) : nat :=
  Z.to_nat (Qfloor ((box2 box - box0 box) / cellWidth)).
Definition rows_of (box : BBox) (cellHeight : Q) : nat :=
  Z.to_nat (Qfloor ((box3 box - box1 box) / cellHeight)).

(** The cell sizes of lines 74-77 for the resolution [res]. *)
Definition cellWidth_of (E : Env) (box : BBox) (units : string) (res : Q)
    : Q :=
  res / distance E (inl (point (box0 box, box1 box)))
                   (inl (point (box2 box, box1 box))) (Some units)
  * (box2 box - box0 box).
Definition cellHeight_of (E : Env) (box : BBox) (units : string) (res : Q)
    : Q :=
  res / distance E (inl (point (box0 box, box1 box)))
                   (inl (point (box0 box, box3 box))) (Some units)
  * (box3 box - box1 box).

(** The message of line 55. *)
Definition resolution_error : exn :=
  Error "resolution must be a number, greater than 0".

(** The node of row [r] and column [c]: its entry in the occupancy
    matrix and its entry in the coordinate matrix. *)
Definition node_at (m : list (list nat)) (pm : list (list Position))
    (r c : nat) : option (nat * Position) :=
  match nth_error m r, nth_error pm r with
  | Some mr, Some pr =>
      match nth_error mr c, nth_error pr c with
      | Some w, Some p => Some (w, p)
      | _, _ => None
      end
  | _, _ => None
  end.

(** The node [(r, c)] is visited before the node [k]: rows from the
    north, columns from the west. *)
Definition earlier (r c : nat) (k : Closest) : Prop :=
  (r < cy k)%nat \/ (r = cy k /\ c < cx k)%nat.

(** [pointMatrix[coord.x][coord.y]] of line 144. *)
Definition stored (pm : list (list Position)) (coord : GridNode)
    : option Position :=
  match nth_error pm (x coord) with
  | Some row => nth_error row (y coord)
  | None => None
  end.

(** What the pass keeps of a target ([start] or [end]) at distance [d]
    from each node, over the nodes [T] visited so far: the recorded
    node is a free node at the recorded distance, no free node is
    nearer, and the free nodes visited before it are strictly
    farther. *)
Definition tracked (d : Position -> Q) (closest : option Closest)
    (minDist : option Q) (T : nat -> nat -> option (nat * Position))
    : Prop :=
  (closest = None -> minDist = None) /\
  (forall k, closest = Some k ->
     exists p, T (cy k) (cx k) = Some (1%nat, p) /\ minDist = Some (d p)) /\
  (forall r c p, T r c = Some (1%nat, p) ->
     exists q, minDist = Some q /\ q <= d p) /\
  (forall k q r c p, closest = Some k -> minDist = Some q ->
     T r c = Some (1%nat, p) -> earlier r c k -> q < d p).

(** [distance(pt, target)] for the node at [p]. *)
Definition dist_to (E : Env) (target : GeoJSON) (p : Position) : Q :=
  distance E (inl (point p)) (inl target) None.

(** [currentX] after [c] rounds of [currentX += cellWidth] from
    [startX], and [currentY] after [r] rounds of
    [currentY -= cellHeight] from [startY]. *)
Definition column_x (startX cellWidth : Q) (c : nat) : Q :=
  Nat.iter c (fun currentX => currentX + cellWidth) startX.
Definition row_y (startY cellHeight : Q) (r : nat) : Q :=
  Nat.iter r (fun currentY => currentY - cellHeight) startY.

(** What holds of the node [v] of row [r] and column [c] in a grid that
    starts at [(startX, startY)]: its occupancy is the obstacle test at
    its coordinates, its coordinates are the loop variables of its
    column and row, and it passed the two loop conditions. *)
Definition node_ok (E : Env) (polygons : list GeoJSON)
    (east south startX startY cellWidth cellHeight : Q)
    (r c : nat) (v : nat * Position) : Prop :=
  fst v = (if isInside E (point (snd v)) polygons then 0 else 1)%nat /\
  fst (snd v) = column_x startX cellWidth c /\
  snd (snd v) = row_y startY cellHeight r /\
  fst (snd v) <= east /\ south <= snd (snd v).

(** The invariant of the outer loop, before the row of index [r] at
    height [y]. *)
Definition grid_invariant (E : Env) (start end_ : GeoJSON)
    (polygons : list GeoJSON)
    (east south startX startY cellWidth cellHeight : Q)
    (y : Q) (r : nat) (s : Scan) : Prop :=
  Forall2 (fun mr pr => List.length mr = List.length pr)
          (matrix s) (pointMatrix s) /\
  r = List.length (matrix s) /\
  y = row_y startY cellHeight r /\
  (forall r' c' v, node_at (matrix s) (pointMatrix s) r' c' = Some v ->
     node_ok E polygons east south startX startY cellWidth cellHeight
             r' c' v) /\
  tracked (dist_to E start) (closestToStart s) (minDistStart s)
          (node_at (matrix s) (pointMatrix s)) /\
  tracked (dist_to E end_) (closestToEnd s) (minDistEnd s)
          (node_at (matrix s) (pointMatrix s)).

(** The invariant of the inner loop, before the node of column [c] at
    [x] in the row of index [r] at height [y]. *)
Definition row_invariant (E : Env) (start end_ : GeoJSON)
    (polygons : list GeoJSON)
    (east south startX startY cellWidth cellHeight : Q)
    (y : Q) (r : nat) (x : Q) (c : nat) (s : Scan)
    (mr : list nat) (pr : list Position) : Prop :=
  Forall2 (fun mr pr => List.length mr = List.length pr)
          (matrix s) (pointMatrix s) /\
  List.length mr = List.length pr /\
  r = List.length (matrix s) /\ c = List.length mr /\
  x = column_x startX cellWidth c /\
  y = row_y startY cellHeight r /\
  Qle_bool south y = true /\
  (forall r' c' v,
     node_at (matrix s ++ [mr]) (pointMatrix s ++ [pr]) r' c' = Some v ->
     node_ok E polygons east south startX startY cellWidth cellHeight
             r' c' v) /\
  tracked (dist_to E start) (closestToStart s) (minDistStart s)
          (node_at (matrix s ++ [mr]) (pointMatrix s ++ [pr])) /\
  tracked (dist_to E end_) (closestToEnd s) (minDistEnd s)
          (node_at (matrix s ++ [mr]) (pointMatrix s ++ [pr])).

(** The matrices have [rows] rows of [cols] nodes each. *)
Definition shaped (rows cols : nat) (s : Scan) : Prop :=
  List.length (matrix s) = rows /\
  Forall (fun row => List.length row = cols) (matrix s) /\
  List.length (pointMatrix s) = rows /\
  Forall (fun row => List.length row = cols) (pointMatrix s).

End ShortestPath.

(* ===================================================================== *)
(** * index.js, any argument and collaborators that throw

    [ShortestPath] is the query on arguments that are GeoJSON objects
    and with collaborators that return.  [Full] follows the same lines
    of [index.js] without the two restrictions: an argument may be any
    value, and every call of a required module may throw instead of
    returning.  What a collaborator returns when it returns is still
    read from [Env]. *)
(* ===================================================================== *)

Module Full.
Import ShortestPath.

(** An argument, as [getType] and line 50 tell the values apart. *)
Inductive argument : Type :=
| Falsy                     (* undefined, null, false, 0, NaN, '' *)
| Untyped                   (* no [geometry.type], no [type]: {}, [], 5 *)
| Typed (g : GeoJSON).

(** The calls of required modules, with their arguments. *)
Inductive call : Type :=
| Cbbox (g : GeoJSON)
| CbboxPolygon (b : BBox)
| Cscale (g : GeoJSON) (factor : Q)
| Cdistance (a b : GeoJSON + Position) (units : option string)
| Cinside (pt polygon : GeoJSON)
| CgetCoord (g : GeoJSON)
| CisNumber (v : value)
| CcleanCoords (g : GeoJSON)
| CGraph (m : list (list nat)) (diagonal : bool)
| Csearch (g : Graph) (a b : option GridNode).

(** Which calls throw, and what. *)
Definition Throws : Type := call -> option exn.

(** The call [c], which returns [a] when it returns. *)
Definition called {A} (T : Throws) (c : call) (a : A) : result A :=
  match T c with
  | Some e => Thrown e
  | None => Returned a
  end.

(** The calls made between the pushes of lines 59-60 and the pops of
    lines 66-67. *)
Definition between_push_and_pop (c : call) : Prop :=
  match c with
  | Cbbox _ | CbboxPolygon _ | Cscale _ _ | Cdistance _ _ _ => True
  | _ => False
  end.

(** ** The caller's obstacle argument *)
Definition M (A : Type) : Type := argument -> result A * argument.

Definition ret {A} (a : A) : M A := fun st => (Returned a, st).
Definition throw {A} (e : exn) : M A := fun st => (Thrown e, st).
Definition lift {A} (r : result A) : M A := fun st => (r, st).
Definition bind {A B} (m : M A) (k : A -> M B) : M B :=
  fun st =>
    match m st with
    | (Returned a, st') => k a st'
    | (Thrown e, st') => (Thrown e, st')
    | (NonFinite, st') => (NonFinite, st')
    | (OutOfFuel, st') => (OutOfFuel, st')
    end.

Declare Scope full_scope.
Notation "x <- m ;; k" := (bind m (fun x => k))
  (at level 61, m at next level, right associativity) : full_scope.
Notation "m ;;; k" := (bind m (fun _ => k))
  (at level 61, right associativity) : full_scope.
Local Open Scope full_scope.

(** [obstacles] *)
Definition get_obstacles : M argument := fun st => (Returned st, st).

(** [obstacles.features] *)
Definition get_features : M (list GeoJSON) :=
  fun st =>
    match st with
    | Typed (FeatureCollection fs) => (Returned fs, st)
    | _ => (Thrown (TypeError "obstacles.features"), st)
    end.

(** [collection.features.push(f)] *)
Definition features_push (f : GeoJSON) : M unit :=
  fun st =>
    match st with
    | Typed (FeatureCollection fs) =>
        (Returned tt, Typed (FeatureCollection (fs ++ [f])))
    | _ => (Thrown (TypeError "collection.features"), st)
    end.

(** [collection.features.pop()] *)
Definition features_pop : M unit :=
  fun st =>
    match st with
    | Typed (FeatureCollection fs) =>
        (Returned tt, Typed (FeatureCollection (removelast fs)))
    | _ => (Thrown (TypeError "collection.features"), st)
    end.

(** ** getType (lines 184-191) *)
Definition getType (geojson : argument) (name : option string) : M string :=
  let name := match name with Some n => n | None => "geojson" end in
  match geojson with
  | Falsy => throw (Error (String.append name " is required"))
  | Typed (Feature g) => ret (geometry_type g)
  | Typed (Geom g) => ret (geometry_type g)
  | Typed (FeatureCollection _) => ret "FeatureCollection"
  | Untyped => throw (Error (String.append name " is invalid"))
  end.

(** ** isInside (lines 174-181) *)
Fixpoint isInside (E : Env) (T : Throws) (pt : GeoJSON)
    (features : list GeoJSON) : result bool :=
  match features with
  | [] => Returned false
  | f :: rest =>
      b <~ called T (Cinside pt f) (inside E pt f) ;;
      if b then Returned true else isInside E T pt rest
  end.

(** ** The grid pass (lines 79-132) *)
Section GridPass.
Variable E : Env.
Variable T : Throws.
Variables start end_ : GeoJSON.
Variable polygons : list GeoJSON.
Variables east south cellWidth cellHeight : Q.

(** The body of the inner loop (lines 105-124): its calls, [isInside]
    and the two of [distance], in the order of the source; when all
    return, the variables are updated as in [ShortestPath.visit]. *)
Definition visit (currentX currentY : Q) (c r : nat)
    (s : Scan) (matrixRow : list nat) (pointMatrixRow : list Position)
    : result (Scan * list nat * list Position) :=
  let pt := point (currentX, currentY) in
  _ <~ isInside E T pt polygons ;;
  _ <~ called T (Cdistance (inl pt) (inl start) None) tt ;;
  _ <~ called T (Cdistance (inl pt) (inl end_) None) tt ;;
  Returned (ShortestPath.visit E start end_ polygons currentX currentY c r
              s matrixRow pointMatrixRow).

(** [while (currentX <= east) { ... }] of row [r] (lines 104-127). *)
Fixpoint scanRow (fuel : nat) (currentX currentY : Q) (c r : nat)
    (s : Scan) (matrixRow : list nat) (pointMatrixRow : list Position)
    : result (Scan * list nat * list Position) :=
  if Qle_bool currentX east then
    match fuel with
    | O => OutOfFuel
    | S fuel' =>
        node <~ visit currentX currentY c r s matrixRow pointMatrixRow ;;
        let '(s, matrixRow, pointMatrixRow) := node in
        scanRow fuel' (currentX + cellWidth) currentY (S c) r
                s matrixRow pointMatrixRow
    end
  else Returned (s, matrixRow, pointMatrixRow).

(** [while (currentY >= south) { ... }] (lines 98-132). *)
Fixpoint scanRows (fuel : nat) (startX currentY : Q) (r : nat) (s : Scan)
    : result Scan :=
  if Qle_bool south currentY then
    match fuel with
    | O => OutOfFuel
    | S fuel' =>
        row <~ scanRow fuel startX currentY 0 r s [] [] ;;
        let '(s, matrixRow, pointMatrixRow) := row in
        let s := {| matrix := matrix s ++ [matrixRow];
                    pointMatrix := pointMatrix s ++ [pointMatrixRow];
                    closestToStart := closestToStart s;
                    closestToEnd := closestToEnd s;
                    minDistStart := minDistStart s;
                    minDistEnd := minDistEnd s |} in
        scanRows fuel' startX (currentY - cellHeight) (S r) s
    end
  else Returned s.

End GridPass.

(** Lines 79-132. *)
Definition gridPass (E : Env) (T : Throws) (fuel : nat) (start end_ : GeoJSON)
    (polygons : list GeoJSON) (box : BBox) (cellWidth cellHeight : Q)
    : result Scan :=
  let west := box0 box in
  let south := box1 box in
  let east := box2 box in
  let north := box3 box in
  let bboxHorizontalSide := east - west in
  let bboxVerticalSide := north - south in
  columns <~ floor_div bboxHorizontalSide cellWidth ;;
  rows <~ floor_div bboxVerticalSide cellHeight ;;
  let deltaX := (bboxHorizontalSide - inject_Z columns * cellWidth) / 2 in
  let deltaY := (bboxVerticalSide - inject_Z rows * cellHeight) / 2 in
  scanRows E T start end_ polygons east south cellWidth cellHeight
    fuel (west + deltaX) (north - deltaY) 0
    {| matrix := []; pointMatrix := [];
       closestToStart := None; closestToEnd := None;
       minDistStart := None; minDistEnd := None |}.

(** ** Lines 69-162 *)
Definition route (E : Env) (T : Throws) (fuel : nat) (start end_ : GeoJSON)
    (polygons : list GeoJSON) (box : BBox) (units : string)
    (resolution : value) : result GeoJSON :=
  let west := box0 box in
  let south := box1 box in
  let east := box2 box in
  let north := box3 box in
  let sw := inl (point (west, south)) in
  let se := inl (point (east, south)) in
  let nw := inl (point (west, north)) in
  width <~ called T (Cdistance sw se (Some units))
                    (distance E sw se (Some units)) ;;
  res <~ match toNumber E resolution with
         | Some q => Returned q
         | None => NonFinite
         end ;;
  xFraction <~ jsdiv res width ;;
  let cellWidth := xFraction * (east - west) in
  height <~ called T (Cdistance sw nw (Some units))
                     (distance E sw nw (Some units)) ;;
  yFraction <~ jsdiv res height ;;
  let cellHeight := yFraction * (north - south) in
  scan <~ gridPass E T fuel start end_ polygons box cellWidth cellHeight ;;
  (* find path on matrix grid *)
  graph <~ called T (CGraph (matrix scan) true)
                    (newGraph E (matrix scan) true) ;;
  startOnMatrix <~ gridAt graph (closestToStart scan) ;;
  endOnMatrix <~ gridAt graph (closestToEnd scan) ;;
  nodes <~ called T (Csearch graph startOnMatrix endOnMatrix)
                    (astar_search E graph startOnMatrix endOnMatrix) ;;
  first <~ geometry_coordinates start ;;
  path <~ mapResult (pointMatrix scan) nodes [first] ;;
  last <~ geometry_coordinates end_ ;;
  called T (CcleanCoords (lineString (path ++ [last])))
           (cleanCoords E (lineString (path ++ [last]))).

(** The condition of line 55,
    [resolution && !isNumber(resolution) || resolution <= 0]:
    [isNumber] is called for a truthy resolution only. *)
Definition rejected (E : Env) (T : Throws) (resolution : value)
    : result bool :=
  if truthy resolution
  then n <~ called T (CisNumber resolution) (isNumber E resolution) ;;
       Returned (negb n || le0 E resolution)
  else Returned (le0 E resolution).

(** Line 61: [bbox(scale(bboxPolygon(bbox(collection)), 1.15))], the
    innermost call first. *)
Definition gridBox (E : Env) (T : Throws) (collection : GeoJSON)
    : result BBox :=
  b <~ called T (Cbbox collection) (bbox E collection) ;;
  p <~ called T (CbboxPolygon b) (bboxPolygon E b) ;;
  g <~ called T (Cscale p (115 # 100)) (scale E p (115 # 100)) ;;
  called T (Cbbox g) (bbox E g).

(** Lines 62-65. *)
Definition derived (E : Env) (T : Throws) (box : BBox) (units : string)
    (resolution : value) : result value :=
  if negb (truthy resolution)
  then let w := inr (box0 box, box1 box) in
       let e := inr (box2 box, box1 box) in
       width <~ called T (Cdistance w e (Some units))
                         (distance E w e (Some units)) ;;
       Returned (VNumber (width / 100))
  else Returned resolution.

(** ** shortestPath (lines 43-163) *)
Definition shortestPath (E : Env) (T : Throws) (fuel : nat)
    (start end_ : argument) (options : option Options) : M GeoJSON :=
  (* validation *)
  t <- getType start (Some "start") ;;
  if negb (String.eqb t "Point") then throw (Error "start must be Point") else
  t <- getType end_ (Some "end") ;;
  if negb (String.eqb t "Point") then throw (Error "end must be Point") else
  obstacles <- get_obstacles ;;
  bad <- match obstacles with
         | Falsy => ret false
         | _ => t <- getType obstacles None ;;
                ret (negb (String.eqb t "FeatureCollection"))
         end ;;
  if bad then throw (Error "obstacles must be FeatureCollection") else
  match start, end_ with
  | Typed start, Typed end_ =>
      (* no obstacles *)
      none <- match obstacles with
              | Falsy => ret true
              | _ => fs <- get_features ;; ret (Nat.eqb (List.length fs) 0)
              end ;;
      if none
      then a <- lift (called T (CgetCoord start) (getCoord E start)) ;;
           b <- lift (called T (CgetCoord end_) (getCoord E end_)) ;;
           ret (lineString [a; b])
      else
      let options := given options in
      let units := units_of options in
      let resolution := resolution options in
      no <- lift (rejected E T resolution) ;;
      if no
      then throw (Error "resolution must be a number, greater than 0")
      else
      (* define path grid area *)
      features_push start ;;;
      features_push end_ ;;;
      collection <- get_obstacles ;;
      match collection with
      | Typed collection =>
          box <- lift (gridBox E T collection) ;;
          resolution <- lift (derived E T box units resolution) ;;
          features_pop ;;;
          features_pop ;;;
          polygons <- get_features ;;
          lift (route E T fuel start end_ polygons box units resolution)
      | _ => throw (TypeError "collection.features")
      end
  | _, _ => throw (Error "start is required")   (* getType has thrown *)
  end.

(** No call throws. *)
Definition quiet : Throws := fun _ => None.

(** An argument of [ShortestPath] as an argument of [Full]. *)
Definition given_argument (a : option GeoJSON) : argument :=
  match a with
  | Some g => Typed g
  | None => Falsy
  end.

End Full.

(* ===================================================================== *)
(** * Concrete collaborators

    Simple planar stand-ins for the required modules, used to run the
    embedding on concrete queries. *)
(* ===================================================================== *)

Module Demo.
Import ShortestPath.

Definition geometry_positions (g : Geometry) : list Position :=
  match g with
  | GPoint c => [c]
  | GLineString cs => cs
  | GPolygon rings => List.concat rings
  end.

Fixpoint positions (g : GeoJSON) : list Position :=
  match g with
  | Feature geo => geometry_positions geo
  | Geom geo => geometry_positions geo
  | FeatureCollection fs => flat_map positions fs
  end.

Definition Qmin (a b : Q) : Q := if Qle_bool a b then a else b.
Definition Qmax (a b : Q) : Q := if Qle_bool a b then b else a.

Definition bbox (g : GeoJSON) : BBox :=
  match positions g with
  | [] => mkBBox 0 0 0 0
  | p :: rest =>
      fold_left
        (fun b q => mkBBox (Qmin (box0 b) (fst q)) (Qmin (box1 b) (snd q))
                           (Qmax (box2 b) (fst q)) (Qmax (box3 b) (snd q)))
        rest (mkBBox (fst p) (snd p) (fst p) (snd p))
  end.

Definition bboxPolygon (b : BBox) : GeoJSON :=
  Feature (GPolygon [[(box0 b, box1 b); (box2 b, box1 b); (box2 b, box3 b);
                      (box0 b, box3 b); (box0 b, box1 b)]]).

(** Scaling about the centre of the bounding box. *)
Definition scale (g : GeoJSON) (factor : Q) : GeoJSON :=
  let b := bbox g in
  let mx := Qred ((box0 b + box2 b) / 2) in
  let my := Qred ((box1 b + box3 b) / 2) in
  let move (p : Position) : Position :=
    (Qred (mx + factor * (fst p - mx)), Qred (my + factor * (snd p - my))) in
  Feature (GPolygon [map move [(box0 b, box1 b); (box2 b, box1 b);
                               (box2 b, box3 b); (box0 b, box3 b);
                               (box0 b, box1 b)]]).

Definition getCoord (g : GeoJSON) : Position :=
  match g with
  | Feature (GPoint c) => c
  | Geom (GPoint c) => c
  | _ => (0, 0)
  end.

(** Even-odd test against the outer ring. *)
Definition inside (pt polygon : GeoJSON) : bool :=
  match polygon with
  | Feature (GPolygon (ring :: _)) =>
      match Inside.classify_textbook (getCoord pt) ring with
      | inl b => b
      | inr _ => false
      end
  | _ => false
  end.

Definition Qmagnitude (a : Q) : Q := if Qle_bool 0 a then a else - a.

(** Taxicab distance, the same in every unit. *)
Definition distance (a b : GeoJSON + Position) (_ : option string) : Q :=
  let coord (v : GeoJSON + Position) :=
    match v with inl g => getCoord g | inr c => c end in
  Qred (Qmagnitude (fst (coord a) - fst (coord b))
        + Qmagnitude (snd (coord a) - snd (coord b))).

(** Consecutive duplicates (the same numbers, digit for digit)
    removed. *)
Definition same_number (a b : Q) : bool :=
  Z.eqb (Qnum a) (Qnum b) && Pos.eqb (Qden a) (Qden b).

Definition same_position (a b : Position) : bool :=
  same_number (fst a) (fst b) && same_number (snd a) (snd b).

Fixpoint dedup (prev : Position) (cs : list Position) : list Position :=
  match cs with
  | [] => []
  | c :: rest =>
      if same_position c prev then dedup prev rest else c :: dedup c rest
  end.

Definition cleanCoords (g : GeoJSON) : GeoJSON :=
  match g with
  | Feature (GLineString (c :: rest)) =>
      Feature (GLineString (c :: dedup c rest))
  | _ => g
  end.

Definition stringToNumber (s : string) : option Q :=
  if String.eqb s "" then Some 0 else None.

Definition isNumber (v : value) : bool :=
  match v with
  | VUndefined | VNull | VNaN => false
  | VBoolean _ | VNumber _ => true
  | VString s => match stringToNumber s with Some _ => true | None => false end
  end.

Fixpoint graphRow (r c : nat) (row : list nat) : list GridNode :=
  match row with
  | [] => []
  | w :: rest => {| x := r; y := c; weight := w |} :: graphRow r (S c) rest
  end.

Fixpoint graphRows (r : nat) (m : list (list nat)) : list (list GridNode) :=
  match m with
  | [] => []
  | row :: rest => graphRow r 0 row :: graphRows (S r) rest
  end.

Definition newGraph (m : list (list nat)) (_ : bool) : Graph :=
  {| grid := graphRows 0 m |}.

(** A stand-in for the search: breadth-first over the free nodes with
    8-directional moves.  The nodes after the start node, in order. *)
Definition free (g : Graph) (rc : nat * nat) : option GridNode :=
  match nth_error (grid g) (fst rc) with
  | Some row =>
      match nth_error row (snd rc) with
      | Some n => if Nat.eqb (weight n) 1 then Some n else None
      | None => None
      end
  | None => None
  end.

Definition same (a b : nat * nat) : bool :=
  Nat.eqb (fst a) (fst b) && Nat.eqb (snd a) (snd b).

Definition neighbours (r c : nat) : list (nat * nat) :=
  filter (fun rc => negb (same rc (r, c)))
         (list_prod [Nat.pred r; r; S r] [Nat.pred c; c; S c]).

Fixpoint unseen (cands visited : list (nat * nat)) : list (nat * nat) :=
  match cands with
  | [] => []
  | rc :: rest =>
      if existsb (same rc) visited then unseen rest visited
      else rc :: unseen rest (rc :: visited)
  end.

Fixpoint bfs (fuel : nat) (g : Graph) (goal : nat * nat)
    (queue : list (list GridNode)) (visited : list (nat * nat))
    : list GridNode :=
  match fuel with
  | O => []
  | S fuel' =>
      match queue with
      | [] => []
      | [] :: rest => bfs fuel' g goal rest visited
      | (n :: before) :: rest =>
          if same (x n, y n) goal then tl (rev (n :: before)) else
          let fresh := unseen (neighbours (x n) (y n)) visited in
          let next :=
            flat_map (fun rc => match free g rc with
                                | Some m => [m]
                                | None => []
                                end) fresh in
          bfs fuel' g goal (rest ++ map (fun m => m :: n :: before) next)
              (visited ++ map (fun m => (x m, y m)) next)
      end
  end.

Definition astar_search (g : Graph) (a b : option GridNode) : list GridNode :=
  match a, b with
  | Some a, Some b =>
      bfs (S (List.length (List.concat (grid g)))) g (x b, y b)
          [[a]] [(x a, y a)]
  | _, _ => []
  end.

Definition env : Env :=
  {| ShortestPath.bbox := bbox;
     ShortestPath.scale := scale;
     ShortestPath.inside := inside;
     ShortestPath.distance := distance;
     ShortestPath.getCoord := getCoord;
     ShortestPath.cleanCoords := cleanCoords;
     ShortestPath.bboxPolygon := bboxPolygon;
     ShortestPath.isNumber := isNumber;
     ShortestPath.stringToNumber := stringToNumber;
     ShortestPath.newGraph := newGraph;
     ShortestPath.astar_search := astar_search |}.

(** The query of the package's documentation (scenario 2). *)
Definition start : GeoJSON := point (-5, -6).
Definition end_ : GeoJSON := point (9, -6).
Definition rectangle : GeoJSON :=
  Feature (GPolygon [[(0, -7); (5, -7); (5, -3); (0, -3); (0, -7)]]).
Definition obstacles : GeoJSON := FeatureCollection [rectangle].

(** The options [{resolution: r}]. *)
Definition with_resolution (r : Q) : option Options :=
  Some {| units := None; resolution := VNumber r |}.

(** An obstacle covering everything in reach (scenario 5). *)
Definition blanket : GeoJSON :=
  Feature (GPolygon [[(-20, -20); (20, -20); (20, 20); (-20, 20);
                      (-20, -20)]]).

(** The box of the all-blocked query. *)
Definition blanket_box : BBox :=
  gridBox env (FeatureCollection [blanket; start; end_]).

(** The box of the query of scenario 2. *)
Definition detour_box : BBox :=
  gridBox env (FeatureCollection [rectangle; start; end_]).

(** The grid pass of the query of scenario 2 at cell size 2. *)
Definition detour_scan : Scan :=
  match gridPass env 40 start end_ [rectangle] detour_box 2 2 with
  | Returned s => s
  | _ => {| matrix := []; pointMatrix := [];
            closestToStart := None; closestToEnd := None;
            minDistStart := None; minDistEnd := None |}
  end.

(** The node of row 1 and column 3 of that pass, under the rectangle,
    and the node of row 1 and column 0, the nearest to the start. *)
Definition detour_node (r c : nat) : nat * Position :=
  match node_at (matrix detour_scan) (pointMatrix detour_scan) r c with
  | Some v => v
  | None => (0%nat, (0, 0))
  end.

(** What the query of scenario 2 returns at resolution 2. *)
Definition detour : GeoJSON :=
  match fst (shortestPath env 40 (Some start) (Some end_)
               (with_resolution 2) (Some obstacles)) with
  | Returned out => out
  | _ => start
  end.



(** A bare geometry has no [geometry] property. *)
Definition bare (g : GeoJSON) : bool :=
  match g with
  | Geom _ => true
  | _ => false
  end.

(** A [bbox] that reads [geometry.coordinates] of every feature of a
    collection, and so throws on a collection that holds a bare
    geometry; every other call returns. *)
Definition throws : Full.Throws :=
  fun c =>
    match c with
    | Full.Cbbox (FeatureCollection fs) =>
        if existsb bare fs
        then Some (TypeError "feature.geometry.coordinates")
        else None
    | _ => None
    end.

(** A start given as a bare Point geometry. *)
Definition bare_start : GeoJSON := Geom (GPoint (-5, -6)).


End Demo.

(* ===================================================================== *)
(** * The node counts in binary64

    The numbers of lines 79-85 and the headers of the two loops, in the
    arithmetic of the program itself, to count the nodes a run builds.
    The bodies of the loops change the loop variables only at lines 125
    and 130. *)
(* ===================================================================== *)

Module Binary64.
Import PrimFloat.
Local Open Scope float_scope.

(** [Math.floor(a)], for [0 <= a < 2^52]: adding and subtracting
    [2^52] rounds [a] to a nearest integer. *)
Definition floor (a : float) : float :=
  let nearest := (a + 4503599627370496) - 4503599627370496 in
  if a <? nearest then nearest - 1 else nearest.

(** Lines 79, 81 and 84; lines 80, 82 and 85. *)
Definition columns (west east cellWidth : float) : float :=
  floor ((east - west) / cellWidth).
Definition rows (south north cellHeight : float) : float :=
  floor ((north - south) / cellHeight).
Definition deltaX (west east cellWidth : float) : float :=
  ((east - west) - columns west east cellWidth * cellWidth) / 2.
Definition deltaY (south north cellHeight : float) : float :=
  ((north - south) - rows south north cellHeight * cellHeight) / 2.




End Binary64.

(** The square ring of the specification's scenario 3. *)
Definition square : list Position :=
  [(0, 0); (0, 10); (10, 10); (10, 0); (0, 0)].

(* ===================================================================== *)
(** * The hit tester *)
(* ===================================================================== *)

Section InsideFacts.
Import Inside.

Lemma divisors_app (t u : list event) :
  divisors (t ++ u) = divisors t ++ divisors u.
Proof.
  induction t as [|e t IH]; simpl; [reflexivity|].
  destruct e; simpl; rewrite IH; reflexivity.
Qed.

Lemma safe_ret {A} (a : A) : safe (ret a).
Proof. split; [exists a; reflexivity | constructor]. Qed.

Lemma safe_console_log (v : printed) : safe (console_log v).
Proof. split; [exists tt; reflexivity | constructor]. Qed.

Lemma safe_bind {A B} (m : M A) (k : A -> M B) :
  safe m -> (forall a, snd m = inl a -> safe (k a)) -> safe (bind m k).
Proof.
  destruct m as [t [a|f]]; intros [[a' Ha] Hd] Hk; simpl in *.
  - destruct (Hk a eq_refl) as [[b Hb] Hd'].
    destruct (k a) as [t' r]; simpl in *. split.
    + exists b; assumption.
    + simpl. rewrite divisors_app. apply Forall_app; split; assumption.
  - discriminate.
Qed.

Lemma Qgtb_compat (a b y : Q) : a == b -> Qgtb a y = Qgtb b y.
Proof. intros H. unfold Qgtb. rewrite H. reflexivity. Qed.

Lemma sides_differ_divisor (a b y : Q) :
  negb (Bool.eqb (Qgtb a y) (Qgtb b y)) = true -> Qeq_bool (b - a) 0 = false.
Proof.
  intros H. destruct (Qeq_bool (b - a) 0) eqn:Hz; [|reflexivity].
  apply Qeq_bool_iff in Hz.
  assert (Hab : a == b) by lra.
  rewrite (Qgtb_compat _ _ y Hab), Bool.eqb_reflx in H. discriminate.
Qed.

Lemma safe_divide (a b : Q) : Qeq_bool b 0 = false -> safe (divide a b).
Proof.
  intros H. unfold divide. rewrite H. split; simpl.
  - eexists; reflexivity.
  - constructor; [|constructor]. unfold nonzero.
    intros Hz. apply Qeq_bool_iff in Hz. congruence.
Qed.

Lemma safe_crosses (xx yy : Q) (ring : list Position) (i j : nat) :
  (i < List.length ring)%nat -> (j < List.length ring)%nat ->
  safe (crosses xx yy ring i j).
Proof.
  intros Hi Hj. unfold crosses, vertex.
  destruct (nth_error ring i) as [vi|] eqn:Ei;
    [|apply nth_error_None in Ei; lia].
  destruct (nth_error ring j) as [vj|] eqn:Ej;
    [|apply nth_error_None in Ej; lia].
  apply safe_bind; [apply safe_ret|]. intros a Ha. inversion Ha; subst a.
  apply safe_bind; [apply safe_ret|]. intros b Hb. inversion Hb; subst b.
  destruct (negb (Bool.eqb (Qgtb (snd vi) yy) (Qgtb (snd vj) yy))) eqn:Hs.
  - apply safe_bind.
    + apply safe_divide. apply (sides_differ_divisor _ _ yy). exact Hs.
    + intros; apply safe_ret.
  - apply safe_ret.
Qed.

Lemma safe_loop (xx yy : Q) (ring : list Position) (len : nat) :
  forall (n i j : nat) (b : bool),
    (i + n = List.length ring)%nat -> (j < List.length ring)%nat ->
    safe (loop n xx yy ring len i j b).
Proof.
  induction n as [|n IH]; intros i j b Hi Hj; cbn [loop].
  - apply safe_ret.
  - apply safe_bind; [apply safe_console_log|]. intros _ _.
    apply safe_bind; [apply safe_console_log|]. intros _ _.
    apply safe_bind; [apply safe_crosses; lia|]. intros c _.
    apply safe_bind; [apply safe_console_log|]. intros _ _.
    apply safe_bind; [apply safe_crosses; lia|]. intros c' _.
    destruct c'.
    + apply safe_bind; [apply safe_console_log|]. intros _ _.
      apply IH; lia.
    + apply IH; lia.
Qed.

Lemma safe_inside (p : Position) (ring : list Position) :
  safe (inside {| point_coordinates := p |}
               {| polygon_coordinates := [ring] |} (fun _ b => b)).
Proof.
  unfold inside; cbn [polygon_coordinates point_coordinates nth_error].
  rewrite Nat.sub_0_r.
  apply safe_bind; [|intros; apply safe_ret].
  destruct ring as [|v ring'].
  - apply safe_ret.
  - apply safe_loop; simpl; lia.
Qed.

Lemma snd_bind {A B} (m : M A) (k : A -> M B) :
  snd (bind m k) = match snd m with
                   | inl a => snd (k a)
                   | inr f => inr f
                   end.
Proof.
  destruct m as [t [a|f]]; simpl; [|reflexivity].
  destruct (k a); reflexivity.
Qed.

Lemma crosses_value (xx yy : Q) (ring : list Position) (i j : nat)
    (vi vj : Position) :
  nth_error ring i = Some vi -> nth_error ring j = Some vj ->
  snd (crosses xx yy ring i j) = inl (toggle xx yy vi vj).
Proof.
  intros Hi Hj. unfold crosses, vertex, toggle. rewrite Hi, Hj.
  rewrite snd_bind; cbn [ret snd]. rewrite snd_bind; cbn [ret snd].
  destruct (negb (Bool.eqb (Qgtb (snd vi) yy) (Qgtb (snd vj) yy))) eqn:Hs;
    [|reflexivity].
  rewrite snd_bind. unfold divide.
  rewrite (sides_differ_divisor _ _ _ Hs). reflexivity.
Qed.

Lemma nth_error_nth_some {A} (l : list A) (n : nat) (d : A) :
  (n < List.length l)%nat -> nth_error l n = Some (nth n l d).
Proof.
  revert n. induction l as [|a l IH]; intros [|n] H; simpl in *;
    try lia; [reflexivity|]. apply IH. lia.
Qed.

(** The loop returns what [walk] computes. *)
Lemma loop_value (xx yy : Q) (ring : list Position) (len : nat) :
  forall (n i j : nat) (b : bool),
    (i + n = List.length ring)%nat -> (j < List.length ring)%nat ->
    snd (loop n xx yy ring len i j b) = inl (walk n xx yy ring i j b).
Proof.
  induction n as [|n IH]; intros i j b Hi Hj; cbn [loop walk];
    [reflexivity|].
  assert (Hc : snd (crosses xx yy ring i j)
               = inl (toggle xx yy (nth i ring (0, 0)) (nth j ring (0, 0)))).
  { apply crosses_value; apply nth_error_nth_some; lia. }
  rewrite snd_bind; cbn [console_log snd].
  rewrite snd_bind; cbn [console_log snd].
  rewrite snd_bind, Hc.
  rewrite snd_bind; cbn [console_log snd].
  rewrite snd_bind, Hc.
  destruct (toggle xx yy (nth i ring (0, 0)) (nth j ring (0, 0))).
  - rewrite snd_bind. cbn [console_log snd]. apply IH; lia.
  - apply IH; lia.
Qed.

Lemma classify_walk (p : Position) (ring : list Position) :
  classify p ring
  = inl (walk (List.length ring) (fst p) (snd p) ring 0
              (List.length ring - 1) false).
Proof.
  unfold classify, inside.
  cbn [polygon_coordinates point_coordinates nth_error].
  rewrite Nat.sub_0_r, snd_bind.
  destruct ring as [|v ring']; [reflexivity|].
  rewrite loop_value by (simpl; lia). reflexivity.
Qed.

Lemma Qgtb_true (a b : Q) : Qgtb a b = true <-> b < a.
Proof.
  unfold Qgtb. rewrite negb_true_iff. split; intros H.
  - destruct (Qlt_le_dec b a) as [H1|H1]; [exact H1|].
    apply Qle_bool_iff in H1. congruence.
  - destruct (Qle_bool a b) eqn:Hle; [|reflexivity].
    apply Qle_bool_iff in Hle. lra.
Qed.

Lemma Qgtb_false (a b : Q) : Qgtb a b = false <-> a <= b.
Proof. unfold Qgtb. rewrite negb_false_iff. apply Qle_bool_iff. Qed.

(** With no pair of vertices toggling, the loop keeps its answer. *)
Lemma walk_still (xx yy : Q) (ring : list Position) :
  (forall vi vj, In vi ring -> In vj ring -> toggle xx yy vi vj = false) ->
  forall (n i j : nat) (b : bool),
    (i + n = List.length ring)%nat -> (j < List.length ring)%nat ->
    walk n xx yy ring i j b = b.
Proof.
  intros Hno. induction n as [|n IH]; intros i j b Hi Hj; cbn [walk];
    [reflexivity|].
  rewrite Hno by (apply nth_In; lia). apply IH; lia.
Qed.

End InsideFacts.

(* ===================================================================== *)
(** * The query *)
(* ===================================================================== *)

Section QueryFacts.
Import ShortestPath.

Lemma getType_point (g : GeoJSON) (c : Position) (name : option string)
    (st : Store) :
  PointAt g c -> getType (Some g) name st = (Returned "Point", st).
Proof. intros [-> | ->]; reflexivity. Qed.

(** The two [pop]s undo the two [push]es. *)
Lemma push_push_pop_pop (a b : GeoJSON) (fs : list GeoJSON) :
  removelast (removelast ((fs ++ [a]) ++ [b])) = fs.
Proof. rewrite !removelast_last. reflexivity. Qed.

(** A query with obstacles and an accepted resolution is [route] on the
    box of the obstacles and the two end points, and leaves the
    obstacle collection as it found it. *)
Lemma shortestPath_route (E : Env) (fuel : nat) (s e f : GeoJSON)
    (sc ec : Position) (fs : list GeoJSON) (options : option Options) :
  PointAt s sc -> PointAt e ec ->
  rejected E (resolution (given options)) = false ->
  let box := gridBox E (FeatureCollection (((f :: fs) ++ [s]) ++ [e])) in
  let units := units_of (given options) in
  shortestPath E fuel (Some s) (Some e) options
               (Some (FeatureCollection (f :: fs)))
  = (route E fuel s e (f :: fs) box units
           (derived E box units (resolution (given options))),
     Some (FeatureCollection (f :: fs))).
Proof.
  intros Hs He Hr box units. unfold shortestPath.
  unfold bind at 1. rewrite (getType_point s sc _ _ Hs). cbn [String.eqb Ascii.eqb Bool.eqb negb].
  unfold bind at 1. rewrite (getType_point e ec _ _ He). cbn [String.eqb Ascii.eqb Bool.eqb negb].
  unfold bind, get_obstacles, getType, get_features, ret, lift, features_push, features_pop.
  cbn -[removelast app route gridBox derived]. rewrite Hr.
  cbn -[removelast app route gridBox derived].
  rewrite !removelast_last. reflexivity.
Qed.

(** A query with obstacles and a resolution that line 55 rejects throws
    before anything is computed or written. *)
Lemma shortestPath_rejected (E : Env) (fuel : nat) (s e f : GeoJSON)
    (sc ec : Position) (fs : list GeoJSON) (options : option Options) :
  PointAt s sc -> PointAt e ec ->
  rejected E (resolution (given options)) = true ->
  shortestPath E fuel (Some s) (Some e) options
               (Some (FeatureCollection (f :: fs)))
  = (Thrown (Error "resolution must be a number, greater than 0"),
     Some (FeatureCollection (f :: fs))).
Proof.
  intros Hs He Hr. unfold shortestPath.
  unfold bind at 1. rewrite (getType_point s sc _ _ Hs). cbn [String.eqb Ascii.eqb Bool.eqb negb].
  unfold bind at 1. rewrite (getType_point e ec _ _ He). cbn [String.eqb Ascii.eqb Bool.eqb negb].
  unfold bind, get_obstacles, getType, get_features, ret, lift, features_push, features_pop.
  cbn -[removelast app route gridBox derived]. rewrite Hr. reflexivity.
Qed.

Ltac run_query :=
  unfold shortestPath, bind, getType, get_obstacles, get_features, ret,
    lift, throw, features_push, features_pop;
  cbn -[removelast app route gridBox derived rejected given units_of
        List.length Nat.eqb].

(** A query that returns was given two Points. *)
Lemma shortestPath_returned_points (E : Env) (fuel : nat)
    (start end_ : option GeoJSON) (options : option Options)
    (st st' : Store) (out : GeoJSON) :
  shortestPath E fuel start end_ options st = (Returned out, st') ->
  exists s e sc ec,
    start = Some s /\ end_ = Some e /\ PointAt s sc /\ PointAt e ec.
Proof.
  unfold PointAt.
  destruct start as [[[]|[]|]|]; run_query; try discriminate;
    destruct end_ as [[[]|[]|]|]; run_query; try discriminate;
    intros _; do 4 eexists; repeat split; eauto.
Qed.

Lemma mapResult_extends (pm : list (list Position)) :
  forall nodes path path',
    mapResult pm nodes path = Returned path' ->
    exists mid, path' = path ++ mid.
Proof.
  induction nodes as [|n nodes IH]; intros path path' H; simpl in H.
  - inversion H; subst. exists []. rewrite app_nil_r. reflexivity.
  - destruct (nth_error pm (x n)) as [row|]; [|discriminate].
    destruct (nth_error row (y n)) as [c|]; [|discriminate].
    destruct (IH _ _ H) as (mid & ->). exists (c :: mid).
    rewrite <- app_assoc. reflexivity.
Qed.

Lemma mapResult_no_error (pm : list (list Position)) (msg : string) :
  forall nodes path, mapResult pm nodes path <> Thrown (Error msg).
Proof.
  induction nodes as [|n nodes IH]; intros path; simpl; [discriminate|].
  destruct (nth_error pm (x n)) as [row|]; [|discriminate].
  destruct (nth_error row (y n)) as [c|]; [|discriminate].
  apply IH.
Qed.


(** What [route] returns is the cleaned line from the start feature's
    coordinates, through grid nodes, to the end feature's. *)
Lemma route_returned (E : Env) (fuel : nat) (s e : GeoJSON)
    (polygons : list GeoJSON) (box : BBox) (units : string)
    (resolution : value) (out : GeoJSON) :
  route E fuel s e polygons box units resolution = Returned out ->
  exists sc ec mid,
    s = Feature (GPoint sc) /\ e = Feature (GPoint ec) /\
    out = cleanCoords E (lineString (([sc] ++ mid) ++ [ec])).
Proof.
  unfold route.
  repeat match goal with
         | |- rbind ?r _ = _ -> _ =>
             let H := fresh "H" in
             destruct r eqn:H; cbn [rbind]; try discriminate
         end.
  intros Hout. inversion Hout; subst; clear Hout.
  repeat match goal with
         | H : geometry_coordinates ?g = Returned _ |- _ =>
             destruct g as [[]| |]; try discriminate;
             inversion H; subst; clear H
         end.
  match goal with H : mapResult _ _ _ = Returned _ |- _ =>
    apply mapResult_extends in H; destruct H as (mid & ->) end.
  do 3 eexists. repeat split.
Qed.

End QueryFacts.

(* ===================================================================== *)
(** * The grid pass *)
(* ===================================================================== *)

(** [n] as a number. *)
Local Notation "'Qn' n" := (inject_Z (Z.of_nat n)) (at level 9, n at level 9).

Lemma Qn_succ (n : nat) : Qn (S n) == Qn n + 1.
Proof.
  rewrite Nat2Z.inj_succ. unfold Z.succ. rewrite inject_Z_plus. reflexivity.
Qed.

Lemma Qn_nonneg (n : nat) : 0 <= Qn n.
Proof. change 0 with (inject_Z 0). rewrite <- Zle_Qle. lia. Qed.

Lemma Qle_bool_false (a b : Q) : b < a -> Qle_bool a b = false.
Proof.
  intros H. destruct (Qle_bool a b) eqn:E; [|reflexivity].
  apply Qle_bool_iff in E. lra.
Qed.

Lemma Qle_bool_true (a b : Q) : a <= b -> Qle_bool a b = true.
Proof. apply Qle_bool_iff. Qed.

Section GridFacts.
Import ShortestPath.
Variable E : Env.
Variables start end_ : GeoJSON.
Variable polygons : list GeoJSON.
Variables east south cellWidth cellHeight : Q.
Hypothesis cellWidth_pos : 0 < cellWidth.
Hypothesis cellHeight_pos : 0 < cellHeight.

Local Abbreviation visit := (visit E start end_ polygons).
Local Abbreviation scanRow := (scanRow E start end_ polygons east cellWidth).
Local Abbreviation scanRows :=
  (scanRows E start end_ polygons east south cellWidth cellHeight).

(** One visit appends one node to the row and leaves the finished rows
    alone. *)
Lemma visit_shape (currentX currentY : Q) (c r : nat) (s : Scan)
    (mr : list nat) (pr : list Position) :
  forall s' mr' pr',
    visit currentX currentY c r s mr pr = (s', mr', pr') ->
    List.length mr' = S (List.length mr) /\
    List.length pr' = S (List.length pr) /\
    matrix s' = matrix s /\ pointMatrix s' = pointMatrix s.
Proof.
  unfold ShortestPath.visit. intros s' mr' pr' H. inversion H; subst; clear H.
  rewrite !length_app. simpl.
  repeat split; try lia;
    repeat match goal with |- context [if ?b then _ else _] =>
             destruct b; simpl end; reflexivity.
Qed.

Lemma scanRow_step (fuel : nat) (currentX currentY : Q) (c r : nat)
    (s : Scan) (mr : list nat) (pr : list Position) :
  scanRow (S fuel) currentX currentY c r s mr pr =
  if Qle_bool currentX east
  then let '(s1, mr1, pr1) := visit currentX currentY c r s mr pr in
       scanRow fuel (currentX + cellWidth) currentY (S c) r s1 mr1 pr1
  else Returned (s, mr, pr).
Proof. reflexivity. Qed.

Lemma scanRow_done (fuel : nat) (currentX currentY : Q) (c r : nat)
    (s : Scan) (mr : list nat) (pr : list Position) :
  Qle_bool currentX east = false ->
  scanRow fuel currentX currentY c r s mr pr = Returned (s, mr, pr).
Proof. intros H. destruct fuel; simpl; rewrite H; reflexivity. Qed.

(** The inner loop visits exactly [n] nodes when the [n]-th, and no
    later one, is still west of [east]. *)
Lemma scanRow_shape (currentY : Q) (r : nat) :
  forall (n fuel : nat) (currentX : Q) (c : nat) (s : Scan)
         (mr : list nat) (pr : list Position),
    (n <= fuel)%nat ->
    (forall m, n = S m -> currentX + Qn m * cellWidth <= east) ->
    east < currentX + Qn n * cellWidth ->
    exists s' mr' pr',
      scanRow fuel currentX currentY c r s mr pr = Returned (s', mr', pr') /\
      List.length mr' = (List.length mr + n)%nat /\
      List.length pr' = (List.length pr + n)%nat /\
      matrix s' = matrix s /\ pointMatrix s' = pointMatrix s.
Proof.
  induction n as [|n IH]; intros fuel currentX c s mr pr Hfuel Hin Hout.
  - exists s, mr, pr.
    assert (Hc : Qle_bool currentX east = false).
    { apply Qle_bool_false.
      change (inject_Z (Z.of_nat 0)) with 0 in Hout. lra. }
    rewrite (scanRow_done _ _ _ _ _ _ _ _ Hc). repeat split; auto; lia.
  - destruct fuel as [|fuel]; [lia|].
    pose proof (Hin n eq_refl) as Hn.
    pose proof (Qn_nonneg n) as Hpos.
    assert (Hc : Qle_bool currentX east = true).
    { apply Qle_bool_true. nra. }
    rewrite scanRow_step, Hc.
    destruct (visit currentX currentY c r s mr pr) as [[s1 mr1] pr1] eqn:Hv.
    apply visit_shape in Hv. destruct Hv as (Hmr & Hpr & Hm & Hpm).
    destruct (IH fuel (currentX + cellWidth) (S c) s1 mr1 pr1)
      as (s' & mr' & pr' & Hrun & Hmr' & Hpr' & Hm' & Hpm').
    + lia.
    + intros m ->. rewrite Qn_succ in Hn. nra.
    + rewrite Qn_succ in Hout. nra.
    + exists s', mr', pr'. rewrite Hrun. repeat split; try congruence; lia.
Qed.

Lemma scanRows_step (fuel : nat) (startX currentY : Q) (r : nat) (s : Scan) :
  scanRows (S fuel) startX currentY r s =
  if Qle_bool south currentY
  then rbind (scanRow (S fuel) startX currentY 0 r s [] [])
         (fun row =>
            let '(s, matrixRow, pointMatrixRow) := row in
            let s := {| matrix := matrix s ++ [matrixRow];
                        pointMatrix := pointMatrix s ++ [pointMatrixRow];
                        closestToStart := closestToStart s;
                        closestToEnd := closestToEnd s;
                        minDistStart := minDistStart s;
                        minDistEnd := minDistEnd s |} in
            scanRows fuel startX (currentY - cellHeight) (S r) s)
  else Returned s.
Proof. reflexivity. Qed.

Lemma scanRows_done (fuel : nat) (startX currentY : Q) (r : nat) (s : Scan) :
  Qle_bool south currentY = false ->
  scanRows fuel startX currentY r s = Returned s.
Proof. intros H. destruct fuel; simpl; rewrite H; reflexivity. Qed.

(** The outer loop builds exactly [n] rows, of [ncols] nodes each, when
    the [n]-th row, and no later one, is still north of [south]. *)
Lemma scanRows_shape (startX : Q) (ncols : nat) :
  (forall m, ncols = S m -> startX + Qn m * cellWidth <= east) ->
  east < startX + Qn ncols * cellWidth ->
  forall (n fuel : nat) (currentY : Q) (r : nat) (s : Scan) (rows : nat),
    (n + ncols <= fuel)%nat ->
    (forall m, n = S m -> south <= currentY - Qn m * cellHeight) ->
    currentY - Qn n * cellHeight < south ->
    shaped rows ncols s ->
    exists s', scanRows fuel startX currentY r s = Returned s' /\
               shaped (rows + n) ncols s'.
Proof.
  intros Hin Hout.
  induction n as [|n IH]; intros fuel currentY r s rows Hn Hy Hy' Hs.
  - exists s. rewrite scanRows_done.
    + split; [reflexivity|]. rewrite Nat.add_0_r. exact Hs.
    + apply Qle_bool_false.
      change (inject_Z (Z.of_nat 0)) with 0 in Hy'. lra.
  - destruct fuel as [|fuel]; [lia|].
    pose proof (Hy n eq_refl) as Hyn.
    pose proof (Qn_nonneg n) as Hpos.
    rewrite scanRows_step, Qle_bool_true by nra.
    destruct (scanRow_shape currentY r ncols (S fuel) startX 0%nat s [] [])
      as (s1 & mr & pr & Hrun & Hmr & Hpr & Hm & Hpm);
      try assumption; [lia|].
    rewrite Hrun. cbn [rbind].
    destruct Hs as (H1 & H2 & H3 & H4).
    match goal with |- context [scanRows fuel startX _ _ ?t] =>
      destruct (IH fuel (currentY - cellHeight) (S r) t (S rows))
        as (s' & Hrun' & Hs') end.
    + lia.
    + intros m ->. rewrite Qn_succ in Hyn. nra.
    + rewrite Qn_succ in Hy'. nra.
    + unfold shaped; cbn [matrix pointMatrix].
      rewrite !length_app, Hm, Hpm; cbn [List.length].
      repeat split; try lia; apply Forall_app; split; auto.
    + exists s'. split; [exact Hrun'|].
      replace (rows + S n)%nat with (S rows + n)%nat by lia. exact Hs'.
Qed.

Lemma scanRow_shape_matrix (currentY : Q) (r : nat) :
  forall (fuel : nat) (currentX : Q) (c : nat) (s : Scan)
         (mr : list nat) (pr : list Position) s' mr' pr',
    scanRow fuel currentX currentY c r s mr pr = Returned (s', mr', pr') ->
    matrix s' = matrix s.
Proof.
  induction fuel as [|fuel IH]; intros currentX c s mr pr s' mr' pr' Hrun.
  - simpl in Hrun. destruct (Qle_bool currentX east); [discriminate|].
    inversion Hrun; subst. reflexivity.
  - rewrite scanRow_step in Hrun.
    destruct (Qle_bool currentX east).
    + destruct (visit currentX currentY c r s mr pr) as [[s1 mr1] pr1] eqn:Hv.
      pose proof (visit_shape _ _ _ _ _ _ _ _ _ _ Hv) as (_ & _ & Hm & _).
      rewrite <- Hm. apply (IH _ _ _ _ _ _ _ _ Hrun).
    + inversion Hrun; subst. reflexivity.
Qed.

(** A nearest node is recorded only at a free node. *)
Lemma visit_free (currentX currentY : Q) (c r : nat) (s : Scan)
    (mr : list nat) (pr : list Position) :
  forall s' mr' pr',
    visit currentX currentY c r s mr pr = (s', mr', pr') ->
    (found s -> has_free (matrix s) \/ Exists (fun w => w = 1%nat) mr) ->
    found s' -> has_free (matrix s') \/ Exists (fun w => w = 1%nat) mr'.
Proof.
  unfold ShortestPath.visit. intros s' mr' pr' H Hinv.
  inversion H; subst; clear H.
  destruct (isInside E (point (currentX, currentY)) polygons); cbn [negb andb].
  - intros Hf. destruct (Hinv Hf) as [Hm|Hr]; [left; exact Hm|].
    right. apply Exists_app. left. exact Hr.
  - intros _. right. apply Exists_app. right. constructor. reflexivity.
Qed.

Lemma scanRow_free (currentY : Q) (r : nat) :
  forall (fuel : nat) (currentX : Q) (c : nat) (s : Scan)
         (mr : list nat) (pr : list Position) s' mr' pr',
    scanRow fuel currentX currentY c r s mr pr = Returned (s', mr', pr') ->
    (found s -> has_free (matrix s) \/ Exists (fun w => w = 1%nat) mr) ->
    found s' -> has_free (matrix s) \/ Exists (fun w => w = 1%nat) mr'.
Proof.
  induction fuel as [|fuel IH]; intros currentX c s mr pr s' mr' pr' Hrun Hinv.
  - simpl in Hrun. destruct (Qle_bool currentX east); [discriminate|].
    inversion Hrun; subst. exact Hinv.
  - rewrite scanRow_step in Hrun.
    destruct (Qle_bool currentX east).
    + destruct (visit currentX currentY c r s mr pr) as [[s1 mr1] pr1] eqn:Hv.
      pose proof (visit_shape _ _ _ _ _ _ _ _ _ _ Hv) as (_ & _ & Hm & _).
      pose proof (visit_free _ _ _ _ _ _ _ _ _ _ Hv Hinv) as Hinv1.
      rewrite <- Hm. apply (IH _ _ _ _ _ _ _ _ Hrun Hinv1).
    + inversion Hrun; subst. exact Hinv.
Qed.

Lemma scanRows_free :
  forall (fuel : nat) (startX currentY : Q) (r : nat) (s s' : Scan),
    scanRows fuel startX currentY r s = Returned s' ->
    (found s -> has_free (matrix s)) ->
    found s' -> has_free (matrix s').
Proof.
  induction fuel as [|fuel IH]; intros startX currentY r s s' Hrun Hinv.
  - simpl in Hrun. destruct (Qle_bool south currentY); [discriminate|].
    inversion Hrun; subst. exact Hinv.
  - rewrite scanRows_step in Hrun.
    destruct (Qle_bool south currentY).
    + destruct (scanRow (S fuel) startX currentY 0 r s [] [])
        as [[[s1 mr] pr]| | |] eqn:Hrow; try discriminate.
      cbn [rbind] in Hrun.
      apply (IH _ _ _ _ _ Hrun). cbn [matrix]. intros Hf.
      unfold has_free. apply Exists_app.
      assert (Hinv0 : found s ->
                      has_free (matrix s) \/ Exists (fun w => w = 1%nat) []).
      { intros H. left. apply Hinv, H. }
      pose proof (scanRow_shape_matrix _ _ _ _ _ _ _ _ _ _ _ Hrow) as Hm.
      destruct (scanRow_free _ _ _ _ _ _ _ _ _ _ _ Hrow Hinv0 Hf) as [H|H].
      * left. rewrite Hm. exact H.
      * right. constructor. exact H.
    + inversion Hrun; subst. exact Hinv.
Qed.

End GridFacts.

Lemma Qhalf (a : Q) : a / 2 == a * (1 # 2).
Proof. field. Qed.

Lemma floor_bounds (a c : Q) :
  0 < c -> 0 <= a ->
  (0 <= Qfloor (a / c))%Z /\
  inject_Z (Qfloor (a / c)) * c <= a /\
  a < (inject_Z (Qfloor (a / c)) + 1) * c.
Proof.
  intros Hc Ha.
  assert (Hq : a == (a / c) * c) by (field; lra).
  assert (H0 : 0 <= a / c).
  { apply Qle_shift_div_l; [exact Hc | lra]. }
  pose proof (Qfloor_le (a / c)) as Hlo.
  pose proof (Qlt_floor (a / c)) as Hhi.
  rewrite inject_Z_plus in Hhi. change (inject_Z 1) with 1 in Hhi.
  split; [|split].
  - change 0%Z with (Qfloor 0). apply Qfloor_resp_le. exact H0.
  - set (t := a / c) in *. nra.
  - set (t := a / c) in *. nra.
Qed.

Section GridPassFacts.
Import ShortestPath.
Variable E : Env.
Variables start end_ : GeoJSON.
Variable polygons : list GeoJSON.
Variable box : BBox.
Variables cellWidth cellHeight : Q.

Local Abbreviation columns_of := (columns_of box cellWidth).
Local Abbreviation rows_of := (rows_of box cellHeight).

Hypothesis west_east : box0 box < box2 box.
Hypothesis south_north : box1 box < box3 box.
Hypothesis cellWidth_pos : 0 < cellWidth.
Hypothesis cellHeight_pos : 0 < cellHeight.

(** The pass ends, with one more row and one more column of nodes than
    the floored counts: the nodes sit on both ends of each run of
    cells. *)
Lemma gridPass_shape (fuel : nat) :
  (S rows_of + S columns_of <= fuel)%nat ->
  exists scan,
    gridPass E fuel start end_ polygons box cellWidth cellHeight
      = Returned scan /\
    shaped (S rows_of) (S columns_of) scan.
Proof.
  intros Hfuel. unfold gridPass, floor_div, jsdiv.
  assert (Hw : Qeq_bool cellWidth 0 = false).
  { destruct (Qeq_bool cellWidth 0) eqn:Hz; [|reflexivity].
    apply Qeq_bool_iff in Hz. lra. }
  assert (Hh : Qeq_bool cellHeight 0 = false).
  { destruct (Qeq_bool cellHeight 0) eqn:Hz; [|reflexivity].
    apply Qeq_bool_iff in Hz. lra. }
  rewrite Hw, Hh. cbn [rbind].
  destruct (floor_bounds (box2 box - box0 box) cellWidth) as (Hc0 & Hc1 & Hc2);
    [assumption | lra |].
  destruct (floor_bounds (box3 box - box1 box) cellHeight) as (Hr0 & Hr1 & Hr2);
    [assumption | lra |].
  assert (Hcols : Qn columns_of
                  == inject_Z (Qfloor ((box2 box - box0 box) / cellWidth))).
  { unfold ShortestPath.columns_of. rewrite Z2Nat.id by assumption.
    reflexivity. }
  assert (Hrows : Qn rows_of
                  == inject_Z (Qfloor ((box3 box - box1 box) / cellHeight))).
  { unfold ShortestPath.rows_of. rewrite Z2Nat.id by assumption.
    reflexivity. }
  set (kc := inject_Z (Qfloor ((box2 box - box0 box) / cellWidth))) in *.
  set (kr := inject_Z (Qfloor ((box3 box - box1 box) / cellHeight))) in *.
  clearbody kc kr.
  apply (scanRows_shape E start end_ polygons (box2 box) (box1 box)
           cellWidth cellHeight cellWidth_pos cellHeight_pos
           _ (S columns_of)) with (n := S rows_of) (rows := 0%nat).
  - intros m Hm. injection Hm as <-. rewrite Hcols, Qhalf. lra.
  - rewrite Qn_succ, Hcols, Qhalf. lra.
  - exact Hfuel.
  - intros m Hm. injection Hm as <-. rewrite Hrows, Qhalf. lra.
  - rewrite Qn_succ, Hrows, Qhalf. lra.
  - repeat split; constructor.
Qed.

End GridPassFacts.

Section PassFacts.
Import ShortestPath.
Variable E : Env.
Variables start end_ : GeoJSON.
Variable polygons : list GeoJSON.

Lemma scanRow_no_throw (east cellWidth currentY : Q) (r : nat) (e : exn) :
  forall fuel currentX c s mr pr,
    scanRow E start end_ polygons east cellWidth fuel currentX currentY
            c r s mr pr <> Thrown e.
Proof.
  induction fuel as [|fuel IH]; intros currentX c s mr pr; simpl;
    destruct (Qle_bool currentX east); try discriminate.
  destruct (visit E start end_ polygons currentX currentY c r s mr pr)
    as [[s1 mr1] pr1].
  apply IH.
Qed.

Lemma scanRows_no_throw (east south cellWidth cellHeight : Q) (e : exn) :
  forall fuel startX currentY r s,
    scanRows E start end_ polygons east south cellWidth cellHeight
             fuel startX currentY r s <> Thrown e.
Proof.
  induction fuel as [|fuel IH]; intros startX currentY r s.
  - simpl. destruct (Qle_bool south currentY); discriminate.
  - rewrite scanRows_step.
    destruct (Qle_bool south currentY); [|discriminate].
    destruct (scanRow E start end_ polygons east cellWidth (S fuel) startX
                      currentY 0 r s [] []) as [[[s1 mr] pr]|e'| |] eqn:Hrow;
      cbn [rbind]; try discriminate.
    + apply IH.
    + exfalso. exact (scanRow_no_throw _ _ _ _ _ _ _ _ _ _ _ Hrow).
Qed.

(** The pass itself throws nothing. *)
Lemma gridPass_no_throw (fuel : nat) (box : BBox) (cellWidth cellHeight : Q)
    (e : exn) :
  gridPass E fuel start end_ polygons box cellWidth cellHeight <> Thrown e.
Proof.
  unfold gridPass, floor_div, jsdiv.
  destruct (Qeq_bool cellWidth 0); cbn [rbind]; [discriminate|].
  destruct (Qeq_bool cellHeight 0); cbn [rbind]; [discriminate|].
  apply scanRows_no_throw.
Qed.

(** A nearest node recorded by the pass witnesses a free node. *)
Lemma gridPass_free (fuel : nat) (box : BBox) (cellWidth cellHeight : Q)
    (scan : Scan) :
  gridPass E fuel start end_ polygons box cellWidth cellHeight
    = Returned scan ->
  found scan -> has_free (matrix scan).
Proof.
  unfold gridPass, floor_div, jsdiv.
  destruct (Qeq_bool cellWidth 0); cbn [rbind]; [discriminate|].
  destruct (Qeq_bool cellHeight 0); cbn [rbind]; [discriminate|].
  intros Hrun. apply (scanRows_free _ _ _ _ _ _ _ _ _ _ _ _ _ _ Hrun).
  unfold found; cbn. intros [H|H]; exfalso; apply H; reflexivity.
Qed.

Lemma all_blocked_not_free (m : list (list nat)) :
  all_blocked m -> ~ has_free m.
Proof.
  unfold all_blocked, has_free. intros Hb Hf.
  apply Exists_exists in Hf. destruct Hf as (row & Hin & Hrow).
  rewrite Forall_forall in Hb. specialize (Hb row Hin).
  apply Exists_exists in Hrow. destruct Hrow as (w & Hw & H1).
  rewrite Forall_forall in Hb. specialize (Hb w Hw). congruence.
Qed.

(** With every node blocked, no nearest node is recorded. *)
Lemma gridPass_blocked (fuel : nat) (box : BBox) (cellWidth cellHeight : Q)
    (scan : Scan) :
  gridPass E fuel start end_ polygons box cellWidth cellHeight
    = Returned scan ->
  all_blocked (matrix scan) ->
  closestToStart scan = None /\ closestToEnd scan = None.
Proof.
  intros Hrun Hb.
  pose proof (gridPass_free _ _ _ _ _ Hrun) as Hf.
  pose proof (all_blocked_not_free _ Hb) as Hn.
  split.
  - destruct (closestToStart scan) eqn:Hc; [|reflexivity].
    exfalso. apply Hn, Hf. left. congruence.
  - destruct (closestToEnd scan) eqn:Hc; [|reflexivity].
    exfalso. apply Hn, Hf. right. congruence.
Qed.

End PassFacts.

(* ===================================================================== *)
(** * The concrete collaborators meet what the query relies on *)
(* ===================================================================== *)

Lemma demo_unwraps : ShortestPath.unwraps Demo.env.
Proof. intros g c [-> | ->]; reflexivity. Qed.

Lemma same_number_eq (a b : Q) : Demo.same_number a b = true -> a = b.
Proof.
  unfold Demo.same_number. destruct a as [n d], b as [n' d']; simpl.
  intros H. apply andb_true_iff in H. destruct H as [Hn Hd].
  apply Z.eqb_eq in Hn. apply Pos.eqb_eq in Hd. congruence.
Qed.

Lemma same_position_eq (a b : Position) :
  Demo.same_position a b = true -> a = b.
Proof.
  unfold Demo.same_position. destruct a, b; simpl. intros H.
  apply andb_true_iff in H. destruct H as [H1 H2].
  apply same_number_eq in H1, H2. congruence.
Qed.

Lemma last_cons_default {A} (a d : A) (l : list A) :
  List.last (a :: l) d = List.last l a.
Proof.
  revert a d. induction l as [|b l IH]; intros a d; [reflexivity|].
  change (List.last (a :: b :: l) d) with (List.last (b :: l) d).
  rewrite (IH b d), (IH b a). reflexivity.
Qed.

Lemma dedup_last (rest : list Position) :
  forall c, List.last (Demo.dedup c rest) c = List.last rest c.
Proof.
  induction rest as [|a rest IH]; intros c; [reflexivity|].
  cbn [Demo.dedup]. destruct (Demo.same_position a c) eqn:Hs.
  - apply same_position_eq in Hs. subst a.
    rewrite IH, last_cons_default. reflexivity.
  - rewrite !last_cons_default. apply IH.
Qed.

Lemma demo_keeps_ends : ShortestPath.keeps_ends Demo.env.
Proof.
  intros [|c rest].
  - exists []. split; reflexivity.
  - exists (c :: Demo.dedup c rest). split; [reflexivity|].
    simpl. rewrite dedup_last. reflexivity.
Qed.

(* ===================================================================== *)
(** * The hit tester: claims C1, C4, C9 *)
(* ===================================================================== *)

(** C1. On the square ring of scenario 3 the hit tester answers [false]
    for the exterior point (15,15), and answers [false] as well for the
    interior point (5,5), where the even-odd rule gives [true]. *)
Theorem classify_square_scenario :
  Inside.classify (5, 5) square = inl false /\
  Inside.classify (15, 15) square = inl false /\
  Inside.classify_textbook (15, 15) square = inl false.
Proof. repeat split; vm_compute; reflexivity. Qed.

(** C4. The hit tester and the textbook even-odd test, which advances
    the previous-vertex index on every iteration, disagree at the centre
    of the square ring. *)
Theorem classify_departs_from_textbook :
  Inside.classify (5, 5) square = inl false /\
  Inside.classify_textbook (5, 5) square = inl true.
Proof. split; vm_compute; reflexivity. Qed.

(** C9. For every point and ring the hit tester ends with a value, every
    division it evaluates has a non-zero divisor, and a pair of vertices
    of equal y-coordinate (a horizontal or zero-length edge) makes the
    toggle condition false without any division being evaluated. *)
Theorem classify_total (p : Position) (ring : list Position) :
  (exists b, Inside.classify p ring = inl b) /\
  Forall Inside.nonzero (Inside.divisors (Inside.trace p ring)) /\
  (forall i j vi vj,
      nth_error ring i = Some vi -> nth_error ring j = Some vj ->
      snd vi == snd vj ->
      Inside.crosses (fst p) (snd p) ring i j = ([], inl false)).
Proof.
  destruct (safe_inside p ring) as [Hv Hd].
  split; [exact Hv|]. split; [exact Hd|].
  intros i j vi vj Hi Hj Hy.
  unfold Inside.crosses, Inside.vertex. rewrite Hi, Hj.
  cbn [Inside.bind Inside.ret app].
  rewrite (Qgtb_compat _ _ (snd p) Hy), Bool.eqb_reflx. reflexivity.
Qed.

(* ===================================================================== *)
(** * The grid: claims C2, C10 *)
(* ===================================================================== *)

Import ShortestPath.






(* ===================================================================== *)
(** * The query: claims C3, C5, C6, C8 *)
(* ===================================================================== *)

(** C6. With two Points and an absent or empty obstacle set the query
    returns at once the line of exactly the two points, start then end,
    whatever the options. *)
Theorem no_obstacles_shortcut (E : Env) (fuel : nat) (s e : GeoJSON)
    (sc ec : Position) (options : option Options) (obstacles : Store) :
  unwraps E -> PointAt s sc -> PointAt e ec ->
  obstacles = None \/ obstacles = Some (FeatureCollection []) ->
  shortestPath E fuel (Some s) (Some e) options obstacles
  = (Returned (lineString [sc; ec]), obstacles).
Proof.
  intros Hu Hs He Ho. unfold shortestPath.
  unfold bind at 1. rewrite (getType_point s sc _ _ Hs).
  cbn [String.eqb Ascii.eqb Bool.eqb negb].
  unfold bind at 1. rewrite (getType_point e ec _ _ He).
  cbn [String.eqb Ascii.eqb Bool.eqb negb].
  rewrite <- (Hu s sc Hs), <- (Hu e ec He).
  destruct Ho as [-> | ->]; reflexivity.
Qed.

Lemma no_obstacles_shortcut_witness :
  shortestPath Demo.env 0 (Some Demo.start) (Some Demo.end_) None None
  = (Returned (lineString [(-5, -6); (9, -6)]), None).
Proof.
  apply (no_obstacles_shortcut Demo.env 0 Demo.start Demo.end_
           (-5, -6) (9, -6) None None).
  - exact demo_unwraps.
  - left; reflexivity.
  - left; reflexivity.
  - left; reflexivity.
Defined.




Lemma positive_cell_divisor (a d w : Q) :
  0 < a / d * w -> Qeq_bool d 0 = false.
Proof.
  intros H. destruct (Qeq_bool d 0) eqn:Hz; [|reflexivity].
  apply Qeq_bool_iff in Hz. rewrite Hz in H.
  assert (H0 : a / 0 * w == 0) by (unfold Qdiv; change (/ 0) with 0; ring).
  rewrite H0 in H. discriminate.
Qed.

(** C3. When every node of the rasterized grid is blocked, no nearest
    free node is recorded for the start or for the end, and the query
    ends by throwing the TypeError of reading [graph.grid] at the unset
    node: a failure of its own kind, not a path and not a blocked node
    taken by default. *)
Theorem all_blocked_fails (E : Env) (s e f : GeoJSON) (sc ec : Position)
    (fs : list GeoJSON) (options : option Options) (res : Q) :
  let box := gridBox E (FeatureCollection (((f :: fs) ++ [s]) ++ [e])) in
  let units := units_of (given options) in
  let cellWidth := cellWidth_of E box units res in
  let cellHeight := cellHeight_of E box units res in
  PointAt s sc -> PointAt e ec ->
  rejected E (resolution (given options)) = false ->
  toNumber E (derived E box units (resolution (given options))) = Some res ->
  box0 box < box2 box -> box1 box < box3 box ->
  0 < cellWidth -> 0 < cellHeight ->
  exists fuel0, forall fuel, (fuel0 <= fuel)%nat ->
    exists scan,
      gridPass E fuel s e (f :: fs) box cellWidth cellHeight
        = Returned scan /\
      (all_blocked (matrix scan) ->
       closestToStart scan = None /\ closestToEnd scan = None /\
       shortestPath E fuel (Some s) (Some e) options
                    (Some (FeatureCollection (f :: fs)))
       = (Thrown (TypeError "graph.grid[undefined][undefined]"),
          Some (FeatureCollection (f :: fs)))).
Proof.
  intros box units cellWidth cellHeight Hs He Hr Hres Hwe Hsn Hw Hh.
  exists (S (rows_of box cellHeight) + S (columns_of box cellWidth))%nat.
  intros fuel Hfuel.
  destruct (gridPass_shape E s e (f :: fs) box cellWidth cellHeight
              Hwe Hsn Hw Hh fuel Hfuel) as (scan & Hrun & _).
  exists scan. split; [exact Hrun|]. intros Hb.
  destruct (gridPass_blocked _ _ _ _ _ _ _ _ _ Hrun Hb) as [Hcs Hce].
  split; [exact Hcs|]. split; [exact Hce|].
  rewrite (shortestPath_route E fuel s e f sc ec fs options Hs He Hr).
  f_equal. unfold route. fold box. fold units. rewrite Hres. cbn [rbind].
  unfold jsdiv.
  rewrite (positive_cell_divisor _ _ _ Hw), (positive_cell_divisor _ _ _ Hh).
  cbn [rbind].
  unfold cellWidth, cellHeight, cellWidth_of, cellHeight_of in Hrun.
  rewrite Hrun. cbn [rbind]. rewrite Hcs. reflexivity.
Qed.

Lemma all_blocked_fails_witness :
  exists fuel0, forall fuel, (fuel0 <= fuel)%nat ->
    exists scan,
      gridPass Demo.env fuel Demo.start Demo.end_ [Demo.blanket]
               Demo.blanket_box
               (cellWidth_of Demo.env Demo.blanket_box "kilometers" 100)
               (cellHeight_of Demo.env Demo.blanket_box "kilometers" 100)
        = Returned scan /\
      (all_blocked (matrix scan) ->
       closestToStart scan = None /\ closestToEnd scan = None /\
       shortestPath Demo.env fuel (Some Demo.start) (Some Demo.end_)
                    (Demo.with_resolution 100)
                    (Some (FeatureCollection [Demo.blanket]))
       = (Thrown (TypeError "graph.grid[undefined][undefined]"),
          Some (FeatureCollection [Demo.blanket]))).
Proof.
  apply (all_blocked_fails Demo.env Demo.start Demo.end_ Demo.blanket
           (-5, -6) (9, -6) [] (Demo.with_resolution 100) 100).
  - left; reflexivity.
  - left; reflexivity.
  - vm_compute; reflexivity.
  - vm_compute; reflexivity.
  - vm_compute; reflexivity.
  - vm_compute; reflexivity.
  - vm_compute; reflexivity.
  - vm_compute; reflexivity.
Defined.

(** The query of scenario 2 at resolution 2, run: the line leaves the
    start, passes north of the rectangle and reaches the end. *)
Example detour_query :
  match Demo.detour with
  | Feature (GLineString cs) => map (fun c => (Qred (fst c), Qred (snd c))) cs
  | _ => []
  end
  = [(-5, -6); (-4, -3); (-2, -3); (0, -3); (2, -3); (4, -3); (6, -3);
     (8, -5); (9, -6)].
Proof. vm_compute. reflexivity. Qed.

(** The all-blocked query of scenario 5, run: one node, at the centre of
    the box and under the obstacle. *)
Example blanket_query :
  shortestPath Demo.env 2 (Some Demo.start) (Some Demo.end_)
               (Demo.with_resolution 100)
               (Some (FeatureCollection [Demo.blanket]))
  = (Thrown (TypeError "graph.grid[undefined][undefined]"),
     Some (FeatureCollection [Demo.blanket])).
Proof. vm_compute. reflexivity. Qed.

Lemma route_no_resolution_error (E : Env) (fuel : nat) (s e : GeoJSON)
    (polygons : list GeoJSON) (box : BBox) (units : string) (r : value) :
  route E fuel s e polygons box units r <> Thrown resolution_error.
Proof.
  unfold route, resolution_error, jsdiv, gridAt, geometry_coordinates.
  repeat match goal with
         | |- rbind ?r _ <> _ =>
             let H := fresh "H" in
             destruct r eqn:H; cbn [rbind]; try discriminate
         end;
    repeat match goal with
           | H : match ?x with _ => _ end = Thrown _ |- _ =>
               destruct x; try discriminate
           | H : (if ?x then _ else _) = Thrown _ |- _ =>
               destruct x; try discriminate
           end;
    try match goal with
        | H : gridPass _ _ _ _ _ _ _ _ = Thrown _ |- _ =>
            exfalso; exact (gridPass_no_throw _ _ _ _ _ _ _ _ _ H)
        end;
    try match goal with
        | H : mapResult _ _ _ = Thrown _ |- _ =>
            intros Heq; injection Heq as ->;
            exact (mapResult_no_error _ _ _ _ H)
        end;
    try (intros Heq; injection Heq as ->; congruence).
Qed.

(** C8, as stated, fails: without obstacles a resolution of -1 is never
    examined, and the query returns the straight line. *)
Lemma resolution_unchecked_without_obstacles :
  rejected Demo.env (VNumber (-1)) = true /\
  shortestPath Demo.env 0 (Some Demo.start) (Some Demo.end_)
               (Demo.with_resolution (-1)) None
  = (Returned (lineString [(-5, -6); (9, -6)]), None).
Proof. split; reflexivity. Qed.

(** C8, amended. Over a non-empty obstacle collection: a resolution that
    is a number <= 0, or a truthy value that [isNumber] rejects, makes
    the query throw the error of line 55 with the collection untouched;
    an absent resolution raises no such error, and the query is the one
    for the resolution distance([west, south], [east, south], units) /
    100. *)
Theorem resolution_checked_with_obstacles (E : Env) (fuel : nat)
    (s e f : GeoJSON) (sc ec : Position) (fs : list GeoJSON)
    (options : option Options) :
  let obstacles := Some (FeatureCollection (f :: fs)) in
  let r := resolution (given options) in
  let box := gridBox E (FeatureCollection (((f :: fs) ++ [s]) ++ [e])) in
  let units := units_of (given options) in
  PointAt s sc -> PointAt e ec ->
  ((exists q, r = VNumber q /\ q <= 0) \/
   (truthy r = true /\ isNumber E r = false) ->
   shortestPath E fuel (Some s) (Some e) options obstacles
   = (Thrown resolution_error, obstacles)) /\
  (r = VUndefined ->
   fst (shortestPath E fuel (Some s) (Some e) options obstacles)
     <> Thrown resolution_error /\
   shortestPath E fuel (Some s) (Some e) options obstacles
   = (route E fuel s e (f :: fs) box units
            (VNumber (distance E (inr (box0 box, box1 box))
                                 (inr (box2 box, box1 box)) (Some units)
                      / 100)),
      obstacles)).
Proof.
  intros obstacles r box units Hs He. subst obstacles. split.
  - intros Hbad. apply (shortestPath_rejected E fuel s e f sc ec fs); auto.
    fold r. unfold rejected. destruct Hbad as [(q & -> & Hq) | [Ht Hn]].
    + apply orb_true_iff. right. unfold le0; cbn [toNumber].
      apply Qle_bool_iff. exact Hq.
    + rewrite Ht, Hn. reflexivity.
  - intros Hr.
    assert (Hok : rejected E (resolution (given options)) = false).
    { fold r. rewrite Hr. reflexivity. }
    rewrite (shortestPath_route E fuel s e f sc ec fs options Hs He Hok).
    fold r box units. rewrite Hr. cbn [fst]. split.
    + apply route_no_resolution_error.
    + reflexivity.
Qed.

Lemma resolution_checked_with_obstacles_witness :
  ((exists q, VNumber (-1) = VNumber q /\ q <= 0) \/
   (truthy (VNumber (-1)) = true /\
    isNumber Demo.env (VNumber (-1)) = false) ->
   shortestPath Demo.env 40 (Some Demo.start) (Some Demo.end_)
                (Demo.with_resolution (-1)) (Some Demo.obstacles)
   = (Thrown resolution_error, Some Demo.obstacles)) /\
  (VNumber (-1) = VUndefined ->
   fst (shortestPath Demo.env 40 (Some Demo.start) (Some Demo.end_)
          (Demo.with_resolution (-1)) (Some Demo.obstacles))
     <> Thrown resolution_error /\
   shortestPath Demo.env 40 (Some Demo.start) (Some Demo.end_)
                (Demo.with_resolution (-1)) (Some Demo.obstacles)
   = (route Demo.env 40 Demo.start Demo.end_ [Demo.rectangle]
            Demo.detour_box "kilometers"
            (VNumber (distance Demo.env
                        (inr (box0 Demo.detour_box, box1 Demo.detour_box))
                        (inr (box2 Demo.detour_box, box1 Demo.detour_box))
                        (Some "kilometers") / 100)),
      Some Demo.obstacles)).
Proof.
  apply (resolution_checked_with_obstacles Demo.env 40 Demo.start Demo.end_
           Demo.rectangle (-5, -6) (9, -6) [] (Demo.with_resolution (-1))).
  - left; reflexivity.
  - left; reflexivity.
Defined.

(** The query of scenario 2 with a negative and with an absent
    resolution. *)
Example negative_resolution_rejected :
  shortestPath Demo.env 40 (Some Demo.start) (Some Demo.end_)
               (Demo.with_resolution (-1)) (Some Demo.obstacles)
  = (Thrown resolution_error, Some Demo.obstacles).
Proof. reflexivity. Qed.

Example absent_resolution_derived :
  derived Demo.env Demo.detour_box "kilometers" VUndefined
  = VNumber ((161 # 10) / 100).
Proof. reflexivity. Qed.

(* ===================================================================== *)
(** * Further properties of the grid pass *)
(* ===================================================================== *)

Lemma nth_error_snoc_nil {A} (l : list (list A)) (r : nat) :
  nth_error (l ++ [[]]) r
  = match nth_error l r with
    | Some row => Some row
    | None => if Nat.eqb r (List.length l) then Some [] else None
    end.
Proof.
  destruct (Nat.lt_ge_cases r (List.length l)) as [H|H].
  - rewrite nth_error_app1 by assumption.
    destruct (nth_error l r) eqn:Hn; [reflexivity|].
    apply nth_error_None in Hn. lia.
  - rewrite nth_error_app2 by assumption.
    rewrite (proj2 (nth_error_None l r)) by assumption.
    destruct (Nat.eqb_spec r (List.length l)) as [->|Hne].
    + rewrite Nat.sub_diag. reflexivity.
    + destruct (r - List.length l)%nat as [|n] eqn:Hd; [lia|].
      destruct n; reflexivity.
Qed.

Lemma node_at_open_row (m : list (list nat)) (pm : list (list Position))
    (r c : nat) :
  node_at (m ++ [[]]) (pm ++ [[]]) r c = node_at m pm r c.
Proof.
  unfold node_at. rewrite !nth_error_snoc_nil.
  destruct (nth_error m r) as [mr|], (nth_error pm r) as [pr|];
    repeat match goal with
           | |- context [if ?b then _ else _] => destruct b
           end;
    try reflexivity;
    repeat match goal with
           | |- context [nth_error ?l c] =>
               lazymatch l with
               | [] => destruct c; cbn
               | _ => destruct (nth_error l c)
               end
           end;
    reflexivity.
Qed.

(** The nodes of a table whose last row is still open lie before the
    next node to visit. *)
Lemma node_at_domain (m : list (list nat)) (pm : list (list Position))
    (mr : list nat) (pr : list Position) (r c : nat) (v : nat * Position) :
  List.length m = List.length pm -> List.length mr = List.length pr ->
  node_at (m ++ [mr]) (pm ++ [pr]) r c = Some v ->
  (r < List.length m)%nat \/ (r = List.length m /\ c < List.length mr)%nat.
Proof.
  intros Hm Hr. unfold node_at.
  destruct (Nat.lt_ge_cases r (List.length m)) as [Hlt|Hge]; [auto|].
  rewrite (nth_error_app2 m) by assumption.
  destruct (r - List.length m)%nat as [|n] eqn:Hd; cbn.
  - rewrite (nth_error_app2 pm) by lia.
    replace (r - List.length pm)%nat with 0%nat by lia. cbn.
    destruct (nth_error mr c) eqn:Hc; [|discriminate].
    intros _. right. split; [lia|].
    apply nth_error_Some. congruence.
  - destruct n; discriminate.
Qed.

(** Visiting a node adds it, and only it, to the table. *)
Lemma node_at_snoc (m : list (list nat)) (pm : list (list Position))
    (mr : list nat) (pr : list Position) (w : nat) (p : Position)
    (r c : nat) (v : nat * Position) :
  List.length m = List.length pm -> List.length mr = List.length pr ->
  node_at (m ++ [mr ++ [w]]) (pm ++ [pr ++ [p]]) r c = Some v <->
  node_at (m ++ [mr]) (pm ++ [pr]) r c = Some v \/
  (r = List.length m /\ c = List.length mr /\ v = (w, p)).
Proof.
  intros Hm Hr. unfold node_at.
  destruct (Nat.lt_ge_cases r (List.length m)) as [Hlt|Hge].
  - rewrite !(nth_error_app1 m), !(nth_error_app1 pm) by lia.
    split; [auto | intros [H|H]; [exact H | lia]].
  - rewrite !(nth_error_app2 m), !(nth_error_app2 pm) by lia.
    rewrite <- Hm.
    destruct (r - List.length m)%nat as [|n] eqn:Hd; cbn.
    + destruct (Nat.lt_ge_cases c (List.length mr)) as [Hc|Hc].
      * rewrite (nth_error_app1 mr), (nth_error_app1 pr) by lia.
        split; [auto | intros [H|H]; [exact H | lia]].
      * rewrite (nth_error_app2 mr), (nth_error_app2 pr) by lia.
        rewrite <- Hr.
        rewrite (proj2 (nth_error_None mr c)) by assumption.
        destruct (c - List.length mr)%nat as [|k] eqn:Hk; cbn.
        -- split.
           ++ intros H. right. inversion H. repeat split; lia.
           ++ intros [H|(_ & _ & ->)]; [discriminate | reflexivity].
        -- split.
           ++ destruct k; discriminate.
           ++ intros [H|(_ & H & _)]; [discriminate | lia].
    + split.
      * destruct n; discriminate.
      * intros [H|(H & _)]; [destruct n; discriminate | lia].
Qed.

Lemma earlier_domain (r c r0 c0 : nat) :
  (r < r0)%nat \/ (r = r0 /\ c < c0)%nat <->
  earlier r c {| cx := c0; cy := r0 |}.
Proof. unfold earlier; cbn. tauto. Qed.

Lemma earlier_asym (a b : Closest) :
  earlier (cy a) (cx a) b -> earlier (cy b) (cx b) a -> False.
Proof. unfold earlier. lia. Qed.

Section LoopInvariants.
Import ShortestPath.
Variable E : Env.
Variables start end_ : GeoJSON.
Variable polygons : list GeoJSON.
Variables east south cellWidth cellHeight startX : Q.

(** An invariant [I] of the inner loop of the row at height [y] and
    index [r], and an invariant [J] of the outer loop. *)
Variable I : Q -> nat -> Q -> nat -> Scan -> list nat -> list Position -> Prop.
Variable J : Q -> nat -> Scan -> Prop.

Hypothesis I_step : forall y r x c s mr pr s' mr' pr',
  Qle_bool x east = true -> I y r x c s mr pr ->
  visit E start end_ polygons x y c r s mr pr = (s', mr', pr') ->
  I y r (x + cellWidth) (S c) s' mr' pr'.

Hypothesis I_init : forall y r s,
  Qle_bool south y = true -> J y r s -> I y r startX 0 s [] [].

Hypothesis J_next : forall y r x c s mr pr,
  Qle_bool x east = false -> I y r x c s mr pr ->
  J (y - cellHeight) (S r)
    {| matrix := matrix s ++ [mr]; pointMatrix := pointMatrix s ++ [pr];
       closestToStart := closestToStart s; closestToEnd := closestToEnd s;
       minDistStart := minDistStart s; minDistEnd := minDistEnd s |}.

Lemma scanRow_invariant (y : Q) (r : nat) :
  forall fuel x c s mr pr s' mr' pr',
    scanRow E start end_ polygons east cellWidth fuel x y c r s mr pr
      = Returned (s', mr', pr') ->
    I y r x c s mr pr ->
    exists x' c', Qle_bool x' east = false /\ I y r x' c' s' mr' pr'.
Proof.
  induction fuel as [|fuel IH]; intros x c s mr pr s' mr' pr' Hrun Hi.
  - simpl in Hrun. destruct (Qle_bool x east) eqn:Hg; [discriminate|].
    inversion Hrun; subst. exists x, c. auto.
  - rewrite scanRow_step in Hrun.
    destruct (Qle_bool x east) eqn:Hg.
    + destruct (visit E start end_ polygons x y c r s mr pr)
        as [[s1 mr1] pr1] eqn:Hv.
      apply (IH _ _ _ _ _ _ _ _ Hrun).
      apply (I_step _ _ _ _ _ _ _ _ _ _ Hg Hi Hv).
    + inversion Hrun; subst. exists x, c. auto.
Qed.

Lemma scanRows_invariant :
  forall fuel y r s s',
    scanRows E start end_ polygons east south cellWidth cellHeight
             fuel startX y r s = Returned s' ->
    J y r s ->
    exists y' r', Qle_bool south y' = false /\ J y' r' s'.
Proof.
  induction fuel as [|fuel IH]; intros y r s s' Hrun Hj.
  - simpl in Hrun. destruct (Qle_bool south y) eqn:Hg; [discriminate|].
    inversion Hrun; subst. exists y, r. auto.
  - rewrite scanRows_step in Hrun.
    destruct (Qle_bool south y) eqn:Hg.
    + destruct (scanRow E start end_ polygons east cellWidth (S fuel)
                        startX y 0 r s [] [])
        as [[[s1 mr] pr]| | |] eqn:Hrow; try discriminate.
      cbn [rbind] in Hrun.
      destruct (scanRow_invariant _ _ _ _ _ _ _ _ _ _ _ Hrow
                  (I_init _ _ _ Hg Hj)) as (x' & c' & Hx & Hi).
      apply (IH _ _ _ _ Hrun). apply (J_next _ _ _ _ _ _ _ Hx Hi).
    + inversion Hrun; subst. exists y, r. auto.
Qed.

End LoopInvariants.

Lemma tracked_ext (d : Position -> Q) (cl : option Closest) (m : option Q)
    (T T' : nat -> nat -> option (nat * Position)) :
  (forall r c, T' r c = T r c) -> tracked d cl m T -> tracked d cl m T'.
Proof.
  intros Heq (H1 & H2 & H3 & H4). repeat split.
  - exact H1.
  - intros k Hk. destruct (H2 k Hk) as (p & Hp & Hm).
    exists p. rewrite Heq. auto.
  - intros r c p Hn. rewrite Heq in Hn. eauto.
  - intros k q r c p Hk Hm Hn. rewrite Heq in Hn. eauto.
Qed.

Lemma below_true (d : Q) (m : option Q) :
  below d m = true -> forall q, m = Some q -> d < q.
Proof.
  intros H q ->. cbn in H. unfold Qltb in H.
  apply negb_true_iff in H.
  destruct (Qlt_le_dec d q) as [Hlt|Hle]; [exact Hlt|].
  apply Qle_bool_iff in Hle. congruence.
Qed.

Lemma below_false (d : Q) (m : option Q) :
  below d m = false -> exists q, m = Some q /\ q <= d.
Proof.
  destruct m as [q|]; cbn; [|discriminate].
  unfold Qltb. intros H. apply negb_false_iff in H.
  exists q. split; [reflexivity|]. apply Qle_bool_iff. exact H.
Qed.

(** Visiting the node [(r0, c0)], after every node of [T], keeps what is
    tracked of a target. *)
Lemma tracked_step (d : Position -> Q) (cl : option Closest) (m : option Q)
    (T T' : nat -> nat -> option (nat * Position))
    (r0 c0 : nat) (blocked : bool) (p0 : Position) :
  (forall r c v, T' r c = Some v <->
     T r c = Some v \/
     (r = r0 /\ c = c0 /\ v = ((if blocked then 0 else 1)%nat, p0))) ->
  (forall r c v, T r c = Some v -> earlier r c {| cx := c0; cy := r0 |}) ->
  tracked d cl m T ->
  tracked d
    (if negb blocked && below (d p0) m
     then Some {| cx := c0; cy := r0 |} else cl)
    (if negb blocked && below (d p0) m then Some (d p0) else m)
    T'.
Proof.
  intros Hnew Hdom (H1 & H2 & H3 & H4).
  assert (Hold : forall r c v, T r c = Some v -> T' r c = Some v).
  { intros r c v H. apply Hnew. left. exact H. }
  destruct blocked; cbn [negb andb].
  - (* a blocked node changes nothing *)
    assert (Hfree : forall r c p, T' r c = Some (1%nat, p) ->
                                  T r c = Some (1%nat, p)).
    { intros r c p H. apply Hnew in H.
      destruct H as [H|(_ & _ & H)]; [exact H | discriminate]. }
    repeat split.
    + exact H1.
    + intros k Hk. destruct (H2 k Hk) as (p & Hp & Hm). eauto.
    + intros r c p Hn. eauto.
    + intros k q r c p Hk Hm Hn. eauto.
  - destruct (below (d p0) m) eqn:Hb.
    + (* a free node nearer than every node before *)
      pose proof (below_true _ _ Hb) as Hlt.
      repeat split.
      * discriminate.
      * intros k Hk. inversion Hk; subst k. exists p0. cbn. split; [|reflexivity].
        apply Hnew. right. auto.
      * intros r c p Hn. exists (d p0). split; [reflexivity|].
        apply Hnew in Hn. destruct Hn as [Hn|(_ & _ & Hn)].
        -- destruct (H3 _ _ _ Hn) as (q & Hq & Hle).
           specialize (Hlt q Hq). lra.
        -- inversion Hn; subst. lra.
      * intros k q r c p Hk Hm Hn He.
        inversion Hk; subst k. inversion Hm; subst q.
        apply Hnew in Hn. destruct Hn as [Hn|(-> & -> & _)].
        -- destruct (H3 _ _ _ Hn) as (q & Hq & Hle).
           specialize (Hlt q Hq). lra.
        -- exfalso. unfold earlier in He; cbn in He. lia.
    + (* a free node no nearer than the recorded one *)
      destruct (below_false _ _ Hb) as (q0 & Hq0 & Hle0).
      repeat split.
      * exact H1.
      * intros k Hk. destruct (H2 k Hk) as (p & Hp & Hm). eauto.
      * intros r c p Hn. apply Hnew in Hn.
        destruct Hn as [Hn|(_ & _ & Hn)]; [eauto|].
        inversion Hn; subst. eauto.
      * intros k q r c p Hk Hm Hn He.
        apply Hnew in Hn. destruct Hn as [Hn|(-> & -> & _)]; [eauto|].
        exfalso. destruct (H2 k Hk) as (pk & Hpk & _).
        apply Hdom in Hpk.
        exact (earlier_asym {| cx := c0; cy := r0 |} k He Hpk).
Qed.

Section PassInvariant.
Import ShortestPath.
Variable E : Env.
Variables start end_ : GeoJSON.
Variable polygons : list GeoJSON.
Variables east south startX startY cellWidth cellHeight : Q.

Local Abbreviation row_inv :=
  (row_invariant E start end_ polygons east south startX startY
                 cellWidth cellHeight).
Local Abbreviation grid_inv :=
  (grid_invariant E start end_ polygons east south startX startY
                  cellWidth cellHeight).

(** What one visit writes. *)
Lemma visit_fields (x y : Q) (c r : nat) (s s' : Scan)
    (mr mr' : list nat) (pr pr' : list Position) :
  visit E start end_ polygons x y c r s mr pr = (s', mr', pr') ->
  let blocked := isInside E (point (x, y)) polygons in
  mr' = mr ++ [if blocked then 0 else 1]%nat /\
  pr' = pr ++ [(x, y)] /\
  matrix s' = matrix s /\ pointMatrix s' = pointMatrix s /\
  closestToStart s'
  = (if negb blocked && below (dist_to E start (x, y)) (minDistStart s)
     then Some {| cx := c; cy := r |} else closestToStart s) /\
  minDistStart s'
  = (if negb blocked && below (dist_to E start (x, y)) (minDistStart s)
     then Some (dist_to E start (x, y)) else minDistStart s) /\
  closestToEnd s'
  = (if negb blocked && below (dist_to E end_ (x, y)) (minDistEnd s)
     then Some {| cx := c; cy := r |} else closestToEnd s) /\
  minDistEnd s'
  = (if negb blocked && below (dist_to E end_ (x, y)) (minDistEnd s)
     then Some (dist_to E end_ (x, y)) else minDistEnd s).
Proof.
  unfold visit, dist_to. intros H. inversion H; subst; clear H. cbn zeta.
  destruct (isInside E (point (x, y)) polygons); cbn [negb andb].
  - repeat split.
  - destruct (below (distance E (inl (point (x, y))) (inl start) None)
                    (minDistStart s)); cbn;
      destruct (below (distance E (inl (point (x, y))) (inl end_) None)
                      (minDistEnd s));
      cbn; repeat split.
Qed.

Lemma row_invariant_step (y : Q) (r : nat) (x : Q) (c : nat) (s s' : Scan)
    (mr mr' : list nat) (pr pr' : list Position) :
  Qle_bool x east = true -> row_inv y r x c s mr pr ->
  visit E start end_ polygons x y c r s mr pr = (s', mr', pr') ->
  row_inv y r (x + cellWidth) (S c) s' mr' pr'.
Proof.
  intros Hg (Hf & Hlr & Hr & Hc & Hx & Hy & Hs & Hn & Hts & Hte) Hv.
  apply visit_fields in Hv. cbn zeta in Hv.
  destruct Hv as (-> & -> & Hm & Hpm & Hcs & Hms & Hce & Hme).
  pose proof Hf as Hlen. apply Forall2_length in Hlen.
  assert (Hnew : forall r' c' v,
    node_at (matrix s ++ [mr ++ [(if isInside E (point (x, y)) polygons
                                   then 0 else 1)%nat]])
            (pointMatrix s ++ [pr ++ [(x, y)]]) r' c' = Some v <->
    node_at (matrix s ++ [mr]) (pointMatrix s ++ [pr]) r' c' = Some v \/
    (r' = r /\ c' = c /\
     v = ((if isInside E (point (x, y)) polygons then 0 else 1)%nat,
          (x, y)))).
  { intros r' c' v. rewrite Hr, Hc. apply node_at_snoc; assumption. }
  assert (Hdom : forall r' c' v,
    node_at (matrix s ++ [mr]) (pointMatrix s ++ [pr]) r' c' = Some v ->
    earlier r' c' {| cx := c; cy := r |}).
  { intros r' c' v H. apply earlier_domain. rewrite Hr, Hc.
    apply (node_at_domain (matrix s) (pointMatrix s) mr pr r' c' v);
      assumption. }
  assert (Hn' : forall r' c' v,
    node_at (matrix s ++ [mr ++ [(if isInside E (point (x, y)) polygons
                                   then 0 else 1)%nat]])
            (pointMatrix s ++ [pr ++ [(x, y)]]) r' c' = Some v ->
    node_ok E polygons east south startX startY cellWidth cellHeight
            r' c' v).
  { intros r' c' v H. apply Hnew in H.
    destruct H as [H|(-> & -> & ->)]; [apply (Hn _ _ _ H)|].
    unfold node_ok; cbn [fst snd].
    split; [reflexivity|]. split; [exact Hx|]. split; [exact Hy|].
    split; apply Qle_bool_iff; assumption. }
  pose proof (tracked_step _ _ _ _ _ r c _ (x, y) Hnew Hdom Hts) as Hts'.
  pose proof (tracked_step _ _ _ _ _ r c _ (x, y) Hnew Hdom Hte) as Hte'.
  unfold row_invariant. rewrite Hm, Hpm, Hcs, Hms, Hce, Hme.
  refine (conj Hf (conj _ (conj Hr (conj _ (conj _ (conj Hy (conj Hs
           (conj Hn' (conj Hts' Hte'))))))))).
  - rewrite !length_app. cbn. lia.
  - rewrite length_app. cbn. lia.
  - rewrite Hx. reflexivity.
Qed.

Lemma row_invariant_init (y : Q) (r : nat) (s : Scan) :
  Qle_bool south y = true -> grid_inv y r s -> row_inv y r startX 0 s [] [].
Proof.
  intros Hg (Hf & Hr & Hy & Hn & Hts & Hte).
  unfold row_invariant.
  refine (conj Hf (conj eq_refl (conj Hr (conj eq_refl (conj eq_refl (conj Hy
           (conj Hg (conj _ (conj _ _))))))))).
  - intros r' c' v H. rewrite node_at_open_row in H. apply (Hn _ _ _ H).
  - apply (tracked_ext _ _ _ _ _ (node_at_open_row _ _) Hts).
  - apply (tracked_ext _ _ _ _ _ (node_at_open_row _ _) Hte).
Qed.

Lemma grid_invariant_next (y : Q) (r : nat) (x : Q) (c : nat) (s : Scan)
    (mr : list nat) (pr : list Position) :
  row_inv y r x c s mr pr ->
  grid_inv (y - cellHeight) (S r)
    {| matrix := matrix s ++ [mr]; pointMatrix := pointMatrix s ++ [pr];
       closestToStart := closestToStart s; closestToEnd := closestToEnd s;
       minDistStart := minDistStart s; minDistEnd := minDistEnd s |}.
Proof.
  intros (Hf & Hlr & Hr & Hc & Hx & Hy & Hs & Hn & Hts & Hte).
  unfold grid_invariant; cbn [matrix pointMatrix closestToStart closestToEnd
                               minDistStart minDistEnd].
  refine (conj _ (conj _ (conj _ (conj Hn (conj Hts Hte))))).
  - apply Forall2_app; [exact Hf | constructor; [exact Hlr | constructor]].
  - rewrite length_app. cbn. lia.
  - rewrite Hy. reflexivity.
Qed.

End PassInvariant.

(** What the pass returns satisfies the invariant of its outer loop,
    for the grid that starts at the first values of [currentX] and
    [currentY]. *)
Lemma gridPass_invariant (E : Env) (fuel : nat) (start end_ : GeoJSON)
    (polygons : list GeoJSON) (box : BBox) (cellWidth cellHeight : Q)
    (scan : Scan) :
  gridPass E fuel start end_ polygons box cellWidth cellHeight
    = Returned scan ->
  exists startX startY y r,
    Qle_bool (box1 box) y = false /\
    grid_invariant E start end_ polygons (box2 box) (box1 box)
      startX startY cellWidth cellHeight y r scan.
Proof.
  unfold gridPass, floor_div, jsdiv.
  destruct (Qeq_bool cellWidth 0); cbn [rbind]; [discriminate|].
  destruct (Qeq_bool cellHeight 0); cbn [rbind]; [discriminate|].
  intros Hrun.
  match type of Hrun with
  | scanRows _ _ _ _ _ _ _ _ _ ?startX ?startY _ _ = _ =>
      exists startX, startY;
      refine (scanRows_invariant E start end_ polygons (box2 box) (box1 box)
                cellWidth cellHeight startX
                (row_invariant E start end_ polygons (box2 box) (box1 box)
                   startX startY cellWidth cellHeight)
                (grid_invariant E start end_ polygons (box2 box) (box1 box)
                   startX startY cellWidth cellHeight)
                _ _ _ fuel _ 0%nat _ scan Hrun _)
  end.
  - intros. eapply row_invariant_step; eassumption.
  - intros. apply row_invariant_init; assumption.
  - intros. eapply grid_invariant_next; eassumption.
  - unfold grid_invariant; cbn [matrix pointMatrix closestToStart
                                 closestToEnd minDistStart minDistEnd].
    assert (Hnone : forall r c, node_at [] [] r c = None).
    { intros [|r] c; reflexivity. }
    assert (Ht : forall d, tracked d None None (node_at [] [])).
    { intros d. repeat split; intros; try discriminate;
        rewrite Hnone in *; discriminate. }
    refine (conj (Forall2_nil _) (conj eq_refl (conj eq_refl (conj _
             (conj (Ht _) (Ht _)))))).
    intros r c v H. rewrite Hnone in H. discriminate.
Qed.

(** The occupancy matrix and the coordinate matrix have the same shape,
    and a node is marked blocked (0) exactly when [isInside] holds at
    the coordinates stored for it, free (1) otherwise. *)
Theorem occupancy_matches_coordinates (E : Env) (fuel : nat)
    (start end_ : GeoJSON) (polygons : list GeoJSON) (box : BBox)
    (cellWidth cellHeight : Q) (scan : Scan) :
  gridPass E fuel start end_ polygons box cellWidth cellHeight
    = Returned scan ->
  Forall2 (fun mr pr => List.length mr = List.length pr)
          (matrix scan) (pointMatrix scan) /\
  (forall r c w p,
      node_at (matrix scan) (pointMatrix scan) r c = Some (w, p) ->
      w = (if isInside E (point p) polygons then 0 else 1)%nat).
Proof.
  intros Hrun.
  destruct (gridPass_invariant _ _ _ _ _ _ _ _ _ Hrun)
    as (startX & startY & y & r & _ & Hf & _ & _ & Hn & _).
  split; [exact Hf|]. intros r' c' w p H.
  exact (proj1 (Hn _ _ _ H)).
Qed.

Lemma occupancy_matches_coordinates_witness :
  Forall2 (fun mr pr => List.length mr = List.length pr)
          (matrix Demo.detour_scan) (pointMatrix Demo.detour_scan) /\
  (forall r c w p,
      node_at (matrix Demo.detour_scan) (pointMatrix Demo.detour_scan) r c
        = Some (w, p) ->
      w = (if isInside Demo.env (point p) [Demo.rectangle]
           then 0 else 1)%nat).
Proof.
  apply (occupancy_matches_coordinates Demo.env 40 Demo.start Demo.end_
           [Demo.rectangle] Demo.detour_box 2 2 Demo.detour_scan).
  vm_compute. reflexivity.
Defined.

(** The grid is a lattice.  The nodes of one column store the very same
    x and the nodes of one row the very same y; the x of the next
    column is the x of this one [+ cellWidth] and the y of the next row
    is the y of this one [- cellHeight], as the loops computed them;
    and every node satisfied both loop conditions, [x <= east] and
    [y >= south]. *)
Theorem grid_is_a_lattice (E : Env) (fuel : nat)
    (start end_ : GeoJSON) (polygons : list GeoJSON) (box : BBox)
    (cellWidth cellHeight : Q) (scan : Scan) (r c : nat)
    (v : nat * Position) :
  gridPass E fuel start end_ polygons box cellWidth cellHeight
    = Returned scan ->
  node_at (matrix scan) (pointMatrix scan) r c = Some v ->
  fst (snd v) <= box2 box /\ box1 box <= snd (snd v) /\
  (forall r' v',
      node_at (matrix scan) (pointMatrix scan) r' c = Some v' ->
      fst (snd v') = fst (snd v)) /\
  (forall c' v',
      node_at (matrix scan) (pointMatrix scan) r c' = Some v' ->
      snd (snd v') = snd (snd v)) /\
  (forall v',
      node_at (matrix scan) (pointMatrix scan) r (S c) = Some v' ->
      fst (snd v') = fst (snd v) + cellWidth) /\
  (forall v',
      node_at (matrix scan) (pointMatrix scan) (S r) c = Some v' ->
      snd (snd v') = snd (snd v) - cellHeight).
Proof.
  intros Hrun H.
  destruct (gridPass_invariant _ _ _ _ _ _ _ _ _ Hrun)
    as (startX & startY & y & r0 & _ & _ & _ & _ & Hn & _).
  destruct (Hn _ _ _ H) as (_ & Hx & Hy & Hxe & Hys).
  split; [exact Hxe|]. split; [exact Hys|].
  split; [|split; [|split]].
  - intros r' v' H'. destruct (Hn _ _ _ H') as (_ & Hx' & _). congruence.
  - intros c' v' H'. destruct (Hn _ _ _ H') as (_ & _ & Hy' & _). congruence.
  - intros v' H'. destruct (Hn _ _ _ H') as (_ & Hx' & _).
    rewrite Hx', Hx. reflexivity.
  - intros v' H'. destruct (Hn _ _ _ H') as (_ & _ & Hy' & _).
    rewrite Hy', Hy. reflexivity.
Qed.

Lemma grid_is_a_lattice_witness :
  fst (snd (Demo.detour_node 1 3)) <= box2 Demo.detour_box /\
  box1 Demo.detour_box <= snd (snd (Demo.detour_node 1 3)) /\
  (forall r' v',
      node_at (matrix Demo.detour_scan) (pointMatrix Demo.detour_scan) r' 3
        = Some v' ->
      fst (snd v') = fst (snd (Demo.detour_node 1 3))) /\
  (forall c' v',
      node_at (matrix Demo.detour_scan) (pointMatrix Demo.detour_scan) 1 c'
        = Some v' ->
      snd (snd v') = snd (snd (Demo.detour_node 1 3))) /\
  (forall v',
      node_at (matrix Demo.detour_scan) (pointMatrix Demo.detour_scan) 1 4
        = Some v' ->
      fst (snd v') = fst (snd (Demo.detour_node 1 3)) + 2) /\
  (forall v',
      node_at (matrix Demo.detour_scan) (pointMatrix Demo.detour_scan) 2 3
        = Some v' ->
      snd (snd v') = snd (snd (Demo.detour_node 1 3)) - 2).
Proof.
  apply (grid_is_a_lattice Demo.env 40 Demo.start Demo.end_
           [Demo.rectangle] Demo.detour_box 2 2 Demo.detour_scan 1 3
           (Demo.detour_node 1 3)).
  - vm_compute. reflexivity.
  - vm_compute. reflexivity.
Defined.

Lemma tracked_nearest (d : Position -> Q) (cl : option Closest)
    (m : option Q) (T : nat -> nat -> option (nat * Position)) :
  tracked d cl m T ->
  match cl with
  | Some k =>
      exists p,
        T (cy k) (cx k) = Some (1%nat, p) /\ m = Some (d p) /\
        forall r c q, T r c = Some (1%nat, q) ->
          d p <= d q /\ (earlier r c k -> d p < d q)
  | None => forall r c q, T r c <> Some (1%nat, q)
  end.
Proof.
  intros (H1 & H2 & H3 & H4). destruct cl as [k|].
  - destruct (H2 k eq_refl) as (p & Hp & Hm).
    exists p. split; [exact Hp|]. split; [exact Hm|].
    intros r c q Hq. split.
    + destruct (H3 _ _ _ Hq) as (q' & Hq' & Hle).
      rewrite Hm in Hq'. inversion Hq'; subst. exact Hle.
    + intros He. apply (H4 k (d p) r c q eq_refl Hm Hq He).
  - intros r c q Hq. destruct (H3 _ _ _ Hq) as (q' & Hq' & _).
    rewrite (H1 eq_refl) in Hq'. discriminate.
Qed.

(** The node recorded as closest to the start is a free node, at the
    recorded distance; no free node is nearer to the start, and the free
    nodes visited before it are strictly farther (ties keep the first
    node of the scan).  Nothing is recorded only when no node is free. *)
Theorem closest_to_start (E : Env) (fuel : nat)
    (start end_ : GeoJSON) (polygons : list GeoJSON) (box : BBox)
    (cellWidth cellHeight : Q) (scan : Scan) :
  gridPass E fuel start end_ polygons box cellWidth cellHeight
    = Returned scan ->
  match closestToStart scan with
  | Some k =>
      exists p,
        node_at (matrix scan) (pointMatrix scan) (cy k) (cx k)
          = Some (1%nat, p) /\
        minDistStart scan = Some (dist_to E start p) /\
        forall r c q,
          node_at (matrix scan) (pointMatrix scan) r c = Some (1%nat, q) ->
          dist_to E start p <= dist_to E start q /\
          (earlier r c k -> dist_to E start p < dist_to E start q)
  | None =>
      forall r c q,
        node_at (matrix scan) (pointMatrix scan) r c <> Some (1%nat, q)
  end.
Proof.
  intros Hrun.
  destruct (gridPass_invariant _ _ _ _ _ _ _ _ _ Hrun)
    as (startX & startY & y & r & _ & _ & _ & _ & _ & Hts & _).
  exact (tracked_nearest _ _ _ _ Hts).
Qed.

Lemma closest_to_start_witness :
  match closestToStart Demo.detour_scan with
  | Some k =>
      exists p,
        node_at (matrix Demo.detour_scan) (pointMatrix Demo.detour_scan)
                (cy k) (cx k) = Some (1%nat, p) /\
        minDistStart Demo.detour_scan
          = Some (dist_to Demo.env Demo.start p) /\
        forall r c q,
          node_at (matrix Demo.detour_scan) (pointMatrix Demo.detour_scan)
                  r c = Some (1%nat, q) ->
          dist_to Demo.env Demo.start p <= dist_to Demo.env Demo.start q /\
          (earlier r c k ->
           dist_to Demo.env Demo.start p < dist_to Demo.env Demo.start q)
  | None =>
      forall r c q,
        node_at (matrix Demo.detour_scan) (pointMatrix Demo.detour_scan) r c
          <> Some (1%nat, q)
  end.
Proof.
  apply (closest_to_start Demo.env 40 Demo.start Demo.end_
           [Demo.rectangle] Demo.detour_box 2 2 Demo.detour_scan).
  vm_compute. reflexivity.
Defined.

(** The node recorded as closest to the end is a free node, at the
    recorded distance; no free node is nearer to the end, and the free
    nodes visited before it are strictly farther.  Nothing is recorded
    only when no node is free. *)
Theorem closest_to_end (E : Env) (fuel : nat)
    (start end_ : GeoJSON) (polygons : list GeoJSON) (box : BBox)
    (cellWidth cellHeight : Q) (scan : Scan) :
  gridPass E fuel start end_ polygons box cellWidth cellHeight
    = Returned scan ->
  match closestToEnd scan with
  | Some k =>
      exists p,
        node_at (matrix scan) (pointMatrix scan) (cy k) (cx k)
          = Some (1%nat, p) /\
        minDistEnd scan = Some (dist_to E end_ p) /\
        forall r c q,
          node_at (matrix scan) (pointMatrix scan) r c = Some (1%nat, q) ->
          dist_to E end_ p <= dist_to E end_ q /\
          (earlier r c k -> dist_to E end_ p < dist_to E end_ q)
  | None =>
      forall r c q,
        node_at (matrix scan) (pointMatrix scan) r c <> Some (1%nat, q)
  end.
Proof.
  intros Hrun.
  destruct (gridPass_invariant _ _ _ _ _ _ _ _ _ Hrun)
    as (startX & startY & y & r & _ & _ & _ & _ & _ & _ & Hte).
  exact (tracked_nearest _ _ _ _ Hte).
Qed.

Lemma closest_to_end_witness :
  match closestToEnd Demo.detour_scan with
  | Some k =>
      exists p,
        node_at (matrix Demo.detour_scan) (pointMatrix Demo.detour_scan)
                (cy k) (cx k) = Some (1%nat, p) /\
        minDistEnd Demo.detour_scan
          = Some (dist_to Demo.env Demo.end_ p) /\
        forall r c q,
          node_at (matrix Demo.detour_scan) (pointMatrix Demo.detour_scan)
                  r c = Some (1%nat, q) ->
          dist_to Demo.env Demo.end_ p <= dist_to Demo.env Demo.end_ q /\
          (earlier r c k ->
           dist_to Demo.env Demo.end_ p < dist_to Demo.env Demo.end_ q)
  | None =>
      forall r c q,
        node_at (matrix Demo.detour_scan) (pointMatrix Demo.detour_scan) r c
          <> Some (1%nat, q)
  end.
Proof.
  apply (closest_to_end Demo.env 40 Demo.start Demo.end_
           [Demo.rectangle] Demo.detour_box 2 2 Demo.detour_scan).
  vm_compute. reflexivity.
Defined.

(* ===================================================================== *)
(** * Further properties of the hit tester *)
(* ===================================================================== *)

(** A point strictly below the lowest vertex of the ring is classified
    as outside: every vertex is above the point, so no pair of vertices
    lies on different sides of its height and nothing is divided. *)
Theorem classify_below_bottom (p : Position) (ring : list Position) :
  (forall v, In v ring -> snd p < snd v) ->
  Inside.classify p ring = inl false.
Proof.
  intros Hbot. rewrite classify_walk. f_equal.
  destruct ring as [|v0 ring0]; [reflexivity|].
  apply walk_still; [|simpl; lia|simpl; lia].
  intros vi vj Hi Hj. unfold Inside.toggle.
  rewrite (proj2 (Qgtb_true (snd vi) (snd p)) (Hbot vi Hi)).
  rewrite (proj2 (Qgtb_true (snd vj) (snd p)) (Hbot vj Hj)). reflexivity.
Qed.

Lemma classify_below_bottom_witness :
  Inside.classify (5, -1) square = inl false.
Proof.
  apply (classify_below_bottom (5, -1) square).
  intros v Hv. simpl in Hv.
  repeat (destruct Hv as [<- | Hv]; [reflexivity|]). destruct Hv.
Defined.

(** A point at the height of the highest vertex of the ring, or above
    it, is classified as outside: the top of the ring is excluded, and a
    ring whose vertices all lie on one horizontal line holds no point. *)
Theorem classify_at_or_above_top (p : Position) (ring : list Position) :
  (forall v, In v ring -> snd v <= snd p) ->
  Inside.classify p ring = inl false.
Proof.
  intros Htop. rewrite classify_walk. f_equal.
  destruct ring as [|v0 ring0]; [reflexivity|].
  apply walk_still; [|simpl; lia|simpl; lia].
  intros vi vj Hi Hj. unfold Inside.toggle.
  rewrite (proj2 (Qgtb_false (snd vi) (snd p)) (Htop vi Hi)).
  rewrite (proj2 (Qgtb_false (snd vj) (snd p)) (Htop vj Hj)). reflexivity.
Qed.

Lemma classify_at_or_above_top_witness :
  Inside.classify (5, 10) square = inl false.
Proof.
  apply (classify_at_or_above_top (5, 10) square).
  intros v Hv. simpl in Hv.
  repeat (destruct Hv as [<- | Hv]; [vm_compute; discriminate|]). destruct Hv.
Defined.

(** Whatever the callback and whatever rings follow the first, a run
    ends by calling the callback once, with a null error and the
    classification of the point against the first ring alone. *)
Theorem inside_calls_back {R : Type} (p : Position)
    (ring : list Position) (holes : list (list Position))
    (done : option Inside.fault -> bool -> R) :
  exists b,
    Inside.classify p ring = inl b /\
    snd (Inside.inside {| Inside.point_coordinates := p |}
           {| Inside.polygon_coordinates := ring :: holes |} done)
    = inl (done None b).
Proof.
  exists (Inside.walk (List.length ring) (fst p) (snd p) ring 0
            (List.length ring - 1) false).
  split; [apply classify_walk|].
  unfold Inside.inside.
  cbn [Inside.polygon_coordinates Inside.point_coordinates nth_error].
  rewrite Nat.sub_0_r, snd_bind.
  destruct ring as [|v ring']; [reflexivity|].
  rewrite loop_value by (simpl; lia). reflexivity.
Qed.

(* ===================================================================== *)
(** * Further properties of the query *)
(* ===================================================================== *)

(** [isInside] holds exactly when the point is inside one of the
    features: never for an empty list, and whatever their order. *)
Theorem isInside_any (E : Env) (pt : GeoJSON) (features : list GeoJSON) :
  isInside E pt features = true <->
  exists f, In f features /\ inside E pt f = true.
Proof.
  induction features as [|f rest IH]; simpl.
  - split; [discriminate | intros (f & [] & _)].
  - destruct (inside E pt f) eqn:Hf.
    + split; [|reflexivity]. intros _. exists f. auto.
    + rewrite IH. split.
      * intros (g & Hg & Hin). exists g. auto.
      * intros (g & [<- | Hg] & Hin); [congruence|]. exists g. auto.
Qed.

(** A query depends on the resolution option only through the check of
    line 55 and the value used after line 65. *)
Lemma shortestPath_resolution (E : Env) (fuel : nat)
    (start end_ : option GeoJSON) (u : option string) (r r' : value)
    (st : Store) :
  rejected E r = rejected E r' ->
  (forall box units, derived E box units r = derived E box units r') ->
  shortestPath E fuel start end_ (Some {| units := u; resolution := r |}) st
  = shortestPath E fuel start end_
                 (Some {| units := u; resolution := r' |}) st.
Proof.
  intros Hrej Hder.
  unfold shortestPath, bind, getType, get_obstacles, get_features, ret,
    lift, throw, features_push, features_pop.
  destruct start as [[[]|[]|]|]; try reflexivity;
    destruct end_ as [[[]|[]|]|]; try reflexivity;
    destruct st as [[[]|[]|fs]|]; try reflexivity;
    cbn -[removelast app route gridBox derived rejected];
    (destruct (Nat.eqb (List.length fs) 0); [reflexivity|]);
    rewrite Hrej; (destruct (rejected E r'); [reflexivity|]);
    rewrite Hder; reflexivity.
Qed.

(** A resolution of NaN is not rejected: the query runs as if no
    resolution had been given. *)
Theorem nan_resolution_as_absent (E : Env) (fuel : nat)
    (start end_ : option GeoJSON) (u : option string) (st : Store) :
  shortestPath E fuel start end_
               (Some {| units := u; resolution := VNaN |}) st
  = shortestPath E fuel start end_
                 (Some {| units := u; resolution := VUndefined |}) st.
Proof. apply shortestPath_resolution; reflexivity. Qed.

(** Over a non-empty obstacle collection, a resolution of [null] or
    [false] is rejected like 0, whatever [isNumber] says of it. *)
Theorem null_and_false_rejected (E : Env) (fuel : nat) (s e f : GeoJSON)
    (sc ec : Position) (fs : list GeoJSON) (options : option Options) :
  PointAt s sc -> PointAt e ec ->
  resolution (given options) = VNull \/
  resolution (given options) = VBoolean false ->
  shortestPath E fuel (Some s) (Some e) options
               (Some (FeatureCollection (f :: fs)))
  = (Thrown resolution_error, Some (FeatureCollection (f :: fs))).
Proof.
  intros Hs He Hr.
  apply (shortestPath_rejected E fuel s e f sc ec fs options Hs He).
  destruct Hr as [-> | ->]; reflexivity.
Qed.

Lemma null_and_false_rejected_witness :
  shortestPath Demo.env 40 (Some Demo.start) (Some Demo.end_)
               (Some {| units := None; resolution := VNull |})
               (Some Demo.obstacles)
  = (Thrown resolution_error, Some Demo.obstacles).
Proof.
  apply (null_and_false_rejected Demo.env 40 Demo.start Demo.end_
           Demo.rectangle (-5, -6) (9, -6) []
           (Some {| units := None; resolution := VNull |})).
  - left; reflexivity.
  - left; reflexivity.
  - left; reflexivity.
Defined.

(** A bare Point geometry passes the checks of lines 45-46, but over a
    non-empty obstacle collection a query with one as start or end
    never returns a path: line 142 or 147 reads [geometry.coordinates]
    of it. *)
Theorem bare_geometry_not_routed (E : Env) (fuel : nat)
    (start end_ : option GeoJSON) (g : Geometry)
    (options : option Options) (f : GeoJSON) (fs : list GeoJSON) :
  start = Some (Geom g) \/ end_ = Some (Geom g) ->
  ~ exists out st',
      shortestPath E fuel start end_ options
                   (Some (FeatureCollection (f :: fs))) = (Returned out, st').
Proof.
  intros Hg (out & st' & Hrun).
  destruct (shortestPath_returned_points _ _ _ _ _ _ _ _ Hrun)
    as (s & e & sc & ec & -> & -> & Hs & He).
  destruct (rejected E (resolution (given options))) eqn:Hr.
  - rewrite (shortestPath_rejected E fuel s e f sc ec fs options Hs He Hr)
      in Hrun. discriminate.
  - rewrite (shortestPath_route E fuel s e f sc ec fs options Hs He Hr)
      in Hrun.
    injection Hrun as Hroute _. apply route_returned in Hroute.
    destruct Hroute as (sc' & ec' & mid & -> & -> & _).
    destruct Hg as [Hg | Hg]; discriminate.
Qed.

Lemma bare_geometry_not_routed_witness :
  ~ exists out st',
      shortestPath Demo.env 40 (Some (Geom (GPoint (-5, -6))))
                   (Some Demo.end_) (Demo.with_resolution 2)
                   (Some Demo.obstacles) = (Returned out, st').
Proof.
  apply (bare_geometry_not_routed Demo.env 40
           (Some (Geom (GPoint (-5, -6)))) (Some Demo.end_)
           (GPoint (-5, -6)) (Demo.with_resolution 2) Demo.rectangle []).
  left; reflexivity.
Defined.

(** The coordinates the path takes from the search result: the result
    maps when every node indexes the coordinate matrix by row [x] and
    column [y], to the stored coordinates of the nodes in order, after
    the points already on the path; it throws a TypeError exactly when
    some node does not. *)
Theorem mapResult_maps (pm : list (list Position))
    (nodes : list GridNode) (path : list Position) :
  (forall path',
      mapResult pm nodes path = Returned path' <->
      exists mids,
        Forall2 (fun n p => stored pm n = Some p) nodes mids /\
        path' = path ++ mids) /\
  ((exists reading, mapResult pm nodes path = Thrown (TypeError reading)) <->
   exists n, In n nodes /\ stored pm n = None).
Proof.
  revert path. induction nodes as [|n nodes IH]; intros path.
  - split.
    + intros path'. cbn. split.
      * intros H. inversion H; subst. exists []. split; [constructor|].
        rewrite app_nil_r. reflexivity.
      * intros (mids & Hm & ->). inversion Hm; subst.
        rewrite app_nil_r. reflexivity.
    + cbn. split; [intros (r & H); discriminate | intros (n & [] & _)].
  - cbn [mapResult].
    destruct (nth_error pm (x n)) as [row|] eqn:Hrow.
    + destruct (nth_error row (y n)) as [c|] eqn:Hc.
      * destruct (IH (path ++ [c])) as [IH1 IH2]. split.
        -- intros path'. rewrite IH1. split.
           ++ intros (mids & Hm & ->). exists (c :: mids). split.
              ** constructor; [|exact Hm]. unfold stored.
                 rewrite Hrow. exact Hc.
              ** rewrite <- app_assoc. reflexivity.
           ++ intros (mids & Hm & ->). inversion Hm as [|? p ? mids' Hp Hm'];
                subst. unfold stored in Hp. rewrite Hrow, Hc in Hp.
              inversion Hp; subst. exists mids'. split; [exact Hm'|].
              rewrite <- app_assoc. reflexivity.
        -- rewrite IH2. split.
           ++ intros (k & Hk & Hs). exists k. split; [right; exact Hk|].
              exact Hs.
           ++ intros (k & [<- | Hk] & Hs).
              ** unfold stored in Hs. rewrite Hrow, Hc in Hs. discriminate.
              ** exists k. auto.
      * split.
        -- intros path'. split; [discriminate|].
           intros (mids & Hm & _). inversion Hm as [|? p ? ? Hp ?]; subst.
           unfold stored in Hp. rewrite Hrow, Hc in Hp. discriminate.
        -- split; [|intros _; eexists; reflexivity].
           intros _. exists n. split; [left; reflexivity|].
           unfold stored. rewrite Hrow. exact Hc.
    + split.
      * intros path'. split; [discriminate|].
        intros (mids & Hm & _). inversion Hm as [|? p ? ? Hp ?]; subst.
        unfold stored in Hp. rewrite Hrow in Hp. discriminate.
      * split; [|intros _; eexists; reflexivity].
        intros _. exists n. split; [left; reflexivity|].
        unfold stored. rewrite Hrow. reflexivity.
Qed.

Lemma mapResult_paired (pm : list (list Position)) :
  forall nodes path path',
    mapResult pm nodes path = Returned path' ->
    exists mids,
      path' = path ++ mids /\
      Forall2 (fun n p => stored pm n = Some p) nodes mids.
Proof.
  induction nodes as [|n nodes IH]; intros path path' H; cbn in H.
  - inversion H; subst. exists []. rewrite app_nil_r. auto.
  - destruct (nth_error pm (x n)) as [row|] eqn:Hrow; [|discriminate].
    destruct (nth_error row (y n)) as [c|] eqn:Hc; [|discriminate].
    destruct (IH _ _ H) as (mids & -> & Hm). exists (c :: mids). split.
    + rewrite <- app_assoc. reflexivity.
    + constructor; [|exact Hm]. unfold stored. rewrite Hrow. exact Hc.
Qed.

(** A stored coordinate belongs to a node of the grid. *)
Lemma stored_node (m : list (list nat)) (pm : list (list Position))
    (n : GridNode) (p : Position) :
  Forall2 (fun mr pr => List.length mr = List.length pr) m pm ->
  stored pm n = Some p ->
  exists w, node_at m pm (x n) (y n) = Some (w, p).
Proof.
  intros Hf. unfold stored, node_at. generalize (x n) as r.
  induction Hf as [|mr pr m' pm' Hlen Hf IH]; intros [|r]; cbn;
    try discriminate.
  - intros Hp.
    destruct (nth_error mr (y n)) as [w|] eqn:Hw.
    + exists w. rewrite Hp. reflexivity.
    + apply nth_error_None in Hw.
      assert (nth_error pr (y n) <> None) by congruence.
      apply nth_error_Some in H. lia.
  - apply IH.
Qed.

(** Whenever lines 69-162 return, the line handed to [cleanCoords] is
    the coordinates of the start feature, then the coordinates stored
    for the nodes that the search returned between the two nearest free
    nodes, in the order of the search and each a node of the grid, then
    the coordinates of the end feature. *)
Theorem route_through_grid_nodes (E : Env) (fuel : nat) (s e : GeoJSON)
    (polygons : list GeoJSON) (box : BBox) (units : string)
    (resolution : value) (out : GeoJSON) :
  route E fuel s e polygons box units resolution = Returned out ->
  exists res scan a b sc ec mids,
    toNumber E resolution = Some res /\
    gridPass E fuel s e polygons box (cellWidth_of E box units res)
             (cellHeight_of E box units res) = Returned scan /\
    gridAt (newGraph E (matrix scan) true) (closestToStart scan)
      = Returned a /\
    gridAt (newGraph E (matrix scan) true) (closestToEnd scan)
      = Returned b /\
    s = Feature (GPoint sc) /\ e = Feature (GPoint ec) /\
    Forall2
      (fun n p => exists w,
         node_at (matrix scan) (pointMatrix scan) (x n) (y n) = Some (w, p))
      (astar_search E (newGraph E (matrix scan) true) a b) mids /\
    out = cleanCoords E (lineString (([sc] ++ mids) ++ [ec])).
Proof.
  unfold route, jsdiv.
  destruct (toNumber E resolution) as [res|]; cbn [rbind]; [|discriminate].
  destruct (Qeq_bool _ 0); cbn [rbind]; [discriminate|].
  destruct (Qeq_bool _ 0); cbn [rbind]; [discriminate|].
  fold (cellWidth_of E box units res). fold (cellHeight_of E box units res).
  destruct (gridPass E fuel s e polygons box _ _) as [scan| | |] eqn:Hpass;
    cbn [rbind]; try discriminate.
  destruct (gridAt _ (closestToStart scan)) as [a| | |] eqn:Ha;
    cbn [rbind]; try discriminate.
  destruct (gridAt _ (closestToEnd scan)) as [b| | |] eqn:Hb;
    cbn [rbind]; try discriminate.
  destruct s as [[sc| |]| |]; cbn [geometry_coordinates rbind];
    try discriminate.
  destruct (mapResult _ _ _) as [path| | |] eqn:Hmap; cbn [rbind];
    try discriminate.
  destruct e as [[ec| |]| |]; cbn [geometry_coordinates rbind];
    try discriminate.
  intros Hout. inversion Hout; subst; clear Hout.
  apply mapResult_paired in Hmap. destruct Hmap as (mids & -> & Hm).
  exists res, scan, a, b, sc, ec, mids.
  repeat (split; [reflexivity || assumption|]).
  split; [|reflexivity].
  destruct (gridPass_invariant _ _ _ _ _ _ _ _ _ Hpass)
    as (startX & startY & y0 & r0 & _ & Hf & _).
  eapply Forall2_impl; [|exact Hm]. intros n p Hp.
  exact (stored_node _ _ _ _ Hf Hp).
Qed.

Lemma route_through_grid_nodes_witness :
  exists res scan a b sc ec mids,
    toNumber Demo.env (VNumber 2) = Some res /\
    gridPass Demo.env 40 Demo.start Demo.end_ [Demo.rectangle]
             Demo.detour_box
             (cellWidth_of Demo.env Demo.detour_box "kilometers" res)
             (cellHeight_of Demo.env Demo.detour_box "kilometers" res)
      = Returned scan /\
    gridAt (newGraph Demo.env (matrix scan) true) (closestToStart scan)
      = Returned a /\
    gridAt (newGraph Demo.env (matrix scan) true) (closestToEnd scan)
      = Returned b /\
    Demo.start = Feature (GPoint sc) /\ Demo.end_ = Feature (GPoint ec) /\
    Forall2
      (fun n p => exists w,
         node_at (matrix scan) (pointMatrix scan) (x n) (y n) = Some (w, p))
      (astar_search Demo.env (newGraph Demo.env (matrix scan) true) a b)
      mids /\
    Demo.detour = cleanCoords Demo.env (lineString (([sc] ++ mids) ++ [ec])).
Proof.
  apply (route_through_grid_nodes Demo.env 40 Demo.start Demo.end_
           [Demo.rectangle] Demo.detour_box "kilometers" (VNumber 2)
           Demo.detour).
  vm_compute. reflexivity.
Defined.

(* ===================================================================== *)
(** * The query, any argument and collaborators that throw: claim C7 *)
(* ===================================================================== *)

Section QuietFacts.
Variable E : Env.
Variables start end_ : GeoJSON.
Variable polygons : list GeoJSON.

Lemma isInside_quiet (pt : GeoJSON) (features : list GeoJSON) :
  Full.isInside E Full.quiet pt features = Returned (isInside E pt features).
Proof.
  induction features as [|f rest IH]; cbn; [reflexivity|].
  destruct (inside E pt f); [reflexivity | exact IH].
Qed.

Lemma scanRow_quiet (east cellWidth currentY : Q) (r : nat) :
  forall fuel currentX c s mr pr,
    Full.scanRow E Full.quiet start end_ polygons east cellWidth
                 fuel currentX currentY c r s mr pr
    = scanRow E start end_ polygons east cellWidth
              fuel currentX currentY c r s mr pr.
Proof.
  induction fuel as [|fuel IH]; intros currentX c s mr pr; cbn;
    destruct (Qle_bool currentX east); try reflexivity.
  unfold Full.visit. rewrite isInside_quiet. cbn.
  destruct (visit E start end_ polygons currentX currentY c r s mr pr)
    as [[s1 mr1] pr1].
  apply IH.
Qed.

Lemma scanRows_quiet (east south cellWidth cellHeight : Q) :
  forall fuel startX currentY r s,
    Full.scanRows E Full.quiet start end_ polygons east south cellWidth
                  cellHeight fuel startX currentY r s
    = scanRows E start end_ polygons east south cellWidth cellHeight
               fuel startX currentY r s.
Proof.
  induction fuel as [|fuel IH]; intros startX currentY r s;
    cbn -[Full.scanRow scanRow];
    destruct (Qle_bool south currentY); try reflexivity.
  rewrite (scanRow_quiet east cellWidth currentY r (S fuel)).
  destruct (scanRow E start end_ polygons east cellWidth (S fuel) startX
                    currentY 0 r s [] []) as [[[s1 mr] pr]| | |];
    cbn [rbind]; try reflexivity.
  apply IH.
Qed.

Lemma gridPass_quiet (fuel : nat) (box : BBox) (cellWidth cellHeight : Q) :
  Full.gridPass E Full.quiet fuel start end_ polygons box cellWidth cellHeight
  = gridPass E fuel start end_ polygons box cellWidth cellHeight.
Proof.
  unfold Full.gridPass, gridPass.
  destruct (floor_div _ cellWidth); cbn [rbind]; try reflexivity.
  destruct (floor_div _ cellHeight); cbn [rbind]; try reflexivity.
  apply scanRows_quiet.
Qed.

Lemma route_quiet (fuel : nat) (box : BBox) (units : string)
    (resolution : value) :
  Full.route E Full.quiet fuel start end_ polygons box units resolution
  = route E fuel start end_ polygons box units resolution.
Proof.
  unfold Full.route, route. cbn [Full.called Full.quiet rbind].
  destruct (toNumber E resolution); cbn [rbind]; [|reflexivity].
  destruct (jsdiv _ _); cbn [rbind]; try reflexivity.
  destruct (jsdiv _ _); cbn [rbind]; try reflexivity.
  rewrite gridPass_quiet. reflexivity.
Qed.

End QuietFacts.

Section FullFacts.
Variable E : Env.
Variable T : Full.Throws.

Lemma called_outcome {A} (c : Full.call) (a : A) :
  (T c = None /\ Full.called T c a = Returned a) \/
  (exists e, T c = Some e /\ Full.called T c a = Thrown e).
Proof.
  unfold Full.called. destruct (T c) as [e|]; [right; exists e | left]; auto.
Qed.

(** Line 61 returns a box, or one of its four calls has thrown. *)
Lemma gridBox_outcome (collection : GeoJSON) :
  (exists box, Full.gridBox E T collection = Returned box) \/
  (exists c e, Full.between_push_and_pop c /\ T c = Some e /\
               Full.gridBox E T collection = Thrown e).
Proof.
  unfold Full.gridBox.
  repeat match goal with
         | |- context [Full.called T ?c ?a] =>
             destruct (called_outcome c a) as [[_ ->] | (e & He & ->)];
             cbn [rbind];
             [|right; exists c, e; repeat split; assumption]
         end.
  left. eexists. reflexivity.
Qed.

(** Lines 62-65 return a resolution, or [distance] has thrown. *)
Lemma derived_outcome (box : BBox) (units : string) (resolution : value) :
  (exists r, Full.derived E T box units resolution = Returned r) \/
  (exists c e, Full.between_push_and_pop c /\ T c = Some e /\
               Full.derived E T box units resolution = Thrown e).
Proof.
  unfold Full.derived.
  destruct (negb (truthy resolution)); [|left; eexists; reflexivity].
  cbn zeta.
  match goal with
  | |- context [Full.called T ?c ?a] =>
      destruct (called_outcome c a) as [[_ ->] | (e & He & ->)];
      cbn [rbind];
      [left; eexists; reflexivity
      |right; exists c, e; repeat split; assumption]
  end.
Qed.

End FullFacts.

Section FullQuery.
Variable E : Env.
Variable T : Full.Throws.

Ltac run_full :=
  unfold Full.shortestPath, Full.bind, Full.getType, Full.get_obstacles,
    Full.get_features, Full.ret, Full.lift, Full.throw, Full.features_push,
    Full.features_pop;
  cbn -[removelast app Full.route Full.gridBox Full.derived Full.rejected
        Full.called given units_of List.length Nat.eqb].

Lemma getType_point_full (g : GeoJSON) (c : Position) (name : option string)
    (st : Full.argument) :
  PointAt g c -> Full.getType (Full.Typed g) name st = (Returned "Point", st).
Proof. intros [-> | ->]; reflexivity. Qed.

(** A query with obstacles and an accepted resolution, from the pushes
    of lines 59-60 on: when the calls of lines 61-64 return, the two
    pops undo the two pushes and the rest is [route] over the obstacles
    alone; when one of them throws, the query ends there, with the
    start and the end still in the collection. *)
Lemma shortestPath_from_push (fuel : nat) (s e f : GeoJSON)
    (sc ec : Position) (fs : list GeoJSON) (options : option Options) :
  PointAt s sc -> PointAt e ec ->
  Full.rejected E T (resolution (given options)) = Returned false ->
  let collection := FeatureCollection (((f :: fs) ++ [s]) ++ [e]) in
  let units := units_of (given options) in
  Full.shortestPath E T fuel (Full.Typed s) (Full.Typed e) options
                    (Full.Typed (FeatureCollection (f :: fs)))
  = match Full.gridBox E T collection with
    | Returned box =>
        match Full.derived E T box units (resolution (given options)) with
        | Returned r =>
            (Full.route E T fuel s e (f :: fs) box units r,
             Full.Typed (FeatureCollection (f :: fs)))
        | Thrown exn => (Thrown exn, Full.Typed collection)
        | NonFinite => (NonFinite, Full.Typed collection)
        | OutOfFuel => (OutOfFuel, Full.Typed collection)
        end
    | Thrown exn => (Thrown exn, Full.Typed collection)
    | NonFinite => (NonFinite, Full.Typed collection)
    | OutOfFuel => (OutOfFuel, Full.Typed collection)
    end.
Proof.
  intros Hs He Hr collection units. unfold Full.shortestPath.
  unfold Full.bind at 1. rewrite (getType_point_full s sc _ _ Hs).
  cbn [String.eqb Ascii.eqb Bool.eqb negb].
  unfold Full.bind at 1. rewrite (getType_point_full e ec _ _ He).
  cbn [String.eqb Ascii.eqb Bool.eqb negb].
  unfold Full.bind, Full.get_obstacles, Full.getType, Full.get_features,
    Full.ret, Full.lift, Full.features_push, Full.features_pop.
  cbn -[removelast app Full.route Full.gridBox Full.derived Full.rejected].
  rewrite Hr.
  cbn -[removelast app Full.route Full.gridBox Full.derived Full.rejected].
  fold collection. fold units.
  destruct (Full.gridBox E T collection) as [box| | |]; try reflexivity.
  destruct (Full.derived E T box units (resolution (given options)));
    try reflexivity.
  rewrite (push_push_pop_pop s e (f :: fs)). reflexivity.
Qed.

End FullQuery.

Section FullChecks.
Variable E : Env.
Variable T : Full.Throws.
Variable fuel : nat.
Variable options : option Options.

Lemma point_or_not (g : GeoJSON) :
  (exists c, PointAt g c) \/ (forall c, ~ PointAt g c).
Proof.
  unfold PointAt.
  destruct g as [[c| |]|[c| |]|fs];
    try (left; exists c; auto; fail);
    right; intros c [H|H]; discriminate.
Qed.

Lemma start_checked (end_ st : Full.argument) :
  Full.shortestPath E T fuel Full.Falsy end_ options st
  = (Thrown (Error "start is required"), st) /\
  Full.shortestPath E T fuel Full.Untyped end_ options st
  = (Thrown (Error "start is invalid"), st) /\
  (forall s, (forall c, ~ PointAt s c) ->
     Full.shortestPath E T fuel (Full.Typed s) end_ options st
     = (Thrown (Error "start must be Point"), st)).
Proof.
  split; [reflexivity|]. split; [reflexivity|].
  intros s Hs.
  destruct s as [[c| |]|[c| |]|]; try reflexivity;
    exfalso; apply (Hs c); [left | right]; reflexivity.
Qed.

Lemma end_checked (s : GeoJSON) (sc : Position) (st : Full.argument) :
  PointAt s sc ->
  Full.shortestPath E T fuel (Full.Typed s) Full.Falsy options st
  = (Thrown (Error "end is required"), st) /\
  Full.shortestPath E T fuel (Full.Typed s) Full.Untyped options st
  = (Thrown (Error "end is invalid"), st) /\
  (forall e, (forall c, ~ PointAt e c) ->
     Full.shortestPath E T fuel (Full.Typed s) (Full.Typed e) options st
     = (Thrown (Error "end must be Point"), st)).
Proof.
  intros [-> | ->]; (split; [reflexivity|]; split; [reflexivity|]);
    intros e He;
    (destruct e as [[c| |]|[c| |]|]; try reflexivity;
     exfalso; apply (He c); [left | right]; reflexivity).
Qed.

Lemma obstacles_checked (s e : GeoJSON) (sc ec : Position) :
  PointAt s sc -> PointAt e ec ->
  Full.shortestPath E T fuel (Full.Typed s) (Full.Typed e) options
                    Full.Untyped
  = (Thrown (Error "geojson is invalid"), Full.Untyped) /\
  (forall g, (forall fs, g <> FeatureCollection fs) ->
     Full.shortestPath E T fuel (Full.Typed s) (Full.Typed e) options
                       (Full.Typed g)
     = (Thrown (Error "obstacles must be FeatureCollection"), Full.Typed g)).
Proof.
  intros [-> | ->] [-> | ->]; (split; [reflexivity|]); intros g Hg;
    (destruct g as [[]|[]|fs]; try reflexivity;
     exfalso; apply (Hg fs); reflexivity).
Qed.

(** Line 50: without obstacles the query is the two calls of [getCoord],
    and the obstacle argument is left alone. *)
Lemma shortcut_taken (s e : GeoJSON) (sc ec : Position)
    (st : Full.argument) :
  PointAt s sc -> PointAt e ec ->
  st = Full.Falsy \/ st = Full.Typed (FeatureCollection []) ->
  Full.shortestPath E T fuel (Full.Typed s) (Full.Typed e) options st
  = (a <~ Full.called T (Full.CgetCoord s) (getCoord E s) ;;
     b <~ Full.called T (Full.CgetCoord e) (getCoord E e) ;;
     Returned (lineString [a; b]), st).
Proof.
  intros Hs He Hst. unfold Full.shortestPath.
  unfold Full.bind at 1. rewrite (getType_point_full s sc _ _ Hs).
  cbn [String.eqb Ascii.eqb Bool.eqb negb].
  unfold Full.bind at 1. rewrite (getType_point_full e ec _ _ He).
  cbn [String.eqb Ascii.eqb Bool.eqb negb].
  unfold Full.bind, Full.get_obstacles, Full.getType, Full.get_features,
    Full.ret, Full.lift.
  destruct Hst as [-> | ->]; cbn -[Full.called];
    destruct (Full.called T (Full.CgetCoord s) (getCoord E s));
    cbn [rbind]; try reflexivity;
    destruct (Full.called T (Full.CgetCoord e) (getCoord E e));
    reflexivity.
Qed.

(** Line 55: a query with obstacles whose resolution is not accepted
    ends before the pushes. *)
Lemma stopped_at_resolution (s e f : GeoJSON) (sc ec : Position)
    (fs : list GeoJSON) :
  PointAt s sc -> PointAt e ec ->
  Full.rejected E T (resolution (given options)) <> Returned false ->
  snd (Full.shortestPath E T fuel (Full.Typed s) (Full.Typed e) options
         (Full.Typed (FeatureCollection (f :: fs))))
  = Full.Typed (FeatureCollection (f :: fs)).
Proof.
  intros Hs He Hr. unfold Full.shortestPath.
  unfold Full.bind at 1. rewrite (getType_point_full s sc _ _ Hs).
  cbn [String.eqb Ascii.eqb Bool.eqb negb].
  unfold Full.bind at 1. rewrite (getType_point_full e ec _ _ He).
  cbn [String.eqb Ascii.eqb Bool.eqb negb].
  unfold Full.bind, Full.get_obstacles, Full.getType, Full.get_features,
    Full.ret, Full.lift, Full.throw.
  cbn -[removelast app Full.route Full.gridBox Full.derived Full.rejected].
  destruct (Full.rejected E T (resolution (given options))) as [[]| | |];
    try reflexivity.
  exfalso. apply Hr. reflexivity.
Qed.

End FullChecks.

(** With arguments that are GeoJSON objects or absent and collaborators
    that return, the query is the one of [ShortestPath]. *)
Lemma shortestPath_quiet (E : Env) (fuel : nat) (start end_ : option GeoJSON)
    (options : option Options) (st : Store) :
  Full.shortestPath E Full.quiet fuel (Full.given_argument start)
                    (Full.given_argument end_) options
                    (Full.given_argument st)
  = (fst (shortestPath E fuel start end_ options st),
     Full.given_argument (snd (shortestPath E fuel start end_ options st))).
Proof.
  destruct start as [s|]; [|reflexivity].
  destruct (point_or_not s) as [[sc Hs] | Hs].
  2: { rewrite (proj2 (proj2 (start_checked E _ fuel options _ _)) s Hs).
       destruct s as [[c| |]|[c| |]|]; try reflexivity;
         exfalso; apply (Hs c); [left | right]; reflexivity. }
  destruct end_ as [e|].
  2: { destruct Hs as [-> | ->]; reflexivity. }
  destruct (point_or_not e) as [[ec He] | He].
  2: { rewrite (proj2 (proj2 (end_checked E _ fuel options s sc _ Hs)) e He).
       destruct Hs as [-> | ->];
         (destruct e as [[c| |]|[c| |]|]; try reflexivity;
          exfalso; apply (He c); [left | right]; reflexivity). }
  destruct st as [[g|g|[|f fs]]|].
  - destruct Hs as [-> | ->], He as [-> | ->], g; reflexivity.
  - destruct Hs as [-> | ->], He as [-> | ->], g; reflexivity.
  - destruct Hs as [-> | ->], He as [-> | ->]; reflexivity.
  - destruct (rejected E (resolution (given options))) eqn:Hr.
    + rewrite (shortestPath_rejected E fuel s e f sc ec fs options Hs He Hr).
      unfold rejected in Hr.
      destruct Hs as [-> | ->], He as [-> | ->];
        unfold Full.shortestPath, Full.bind, Full.getType,
          Full.get_obstacles, Full.get_features, Full.ret, Full.lift,
          Full.throw, Full.rejected, Full.given_argument;
        cbn -[removelast app Full.route Full.gridBox Full.derived truthy
              le0 isNumber];
        destruct (truthy (resolution (given options)));
        cbn -[removelast app Full.route Full.gridBox Full.derived le0
              isNumber] in *;
        rewrite Hr; reflexivity.
    + rewrite (shortestPath_route E fuel s e f sc ec fs options Hs He Hr).
      cbn [fst snd Full.given_argument].
      rewrite (shortestPath_from_push E Full.quiet fuel s e f sc ec fs
                 options Hs He).
      * unfold Full.gridBox, Full.derived, gridBox, derived.
        cbn [Full.called Full.quiet rbind].
        destruct (negb (truthy (resolution (given options))));
          cbn [rbind]; rewrite route_quiet; reflexivity.
      * unfold Full.rejected. unfold rejected in Hr.
        destruct (truthy (resolution (given options)));
          cbn [Full.called Full.quiet rbind andb orb] in *; rewrite Hr;
          reflexivity.
  - destruct Hs as [-> | ->], He as [-> | ->]; reflexivity.
Qed.

(** C7. The two pops of lines 66-67 undo the two pushes of lines 59-60
    only when lines 61-65 are passed: nothing guards the calls in between.
    With a start given as a bare Point geometry, which passes the check
    of line 45, and a [bbox] that throws on reading it, the query fails
    at line 61 and leaves the caller's collection with three entries:
    the obstacle, the start and the end. *)
Theorem collection_left_extended :
  Full.shortestPath Demo.env Demo.throws 40 (Full.Typed Demo.bare_start)
                    (Full.Typed Demo.end_) (Demo.with_resolution 2)
                    (Full.Typed Demo.obstacles)
  = (Thrown (TypeError "feature.geometry.coordinates"),
     Full.Typed (FeatureCollection
                   [Demo.rectangle; Demo.bare_start; Demo.end_])).
Proof. vm_compute. reflexivity. Qed.

(** After a query, returned or failed, the caller's obstacle argument
    is what it was before, element for element, unless the query failed
    by a throw of one of the calls made between the pushes of lines
    59-60 and the pops of lines 66-67 ([bbox], [bboxPolygon], [scale],
    [distance]): then the collection is left with the start and the end
    appended.  The start and the end are values that no statement of
    the source assigns into. *)
Theorem obstacles_restored_unless_thrown_between (E : Env) (T : Full.Throws)
    (fuel : nat) (start end_ : Full.argument) (options : option Options)
    (st : Full.argument) :
  snd (Full.shortestPath E T fuel start end_ options st) = st \/
  exists s e fs c exn,
    start = Full.Typed s /\ end_ = Full.Typed e /\
    st = Full.Typed (FeatureCollection fs) /\
    Full.between_push_and_pop c /\ T c = Some exn /\
    Full.shortestPath E T fuel start end_ options st
    = (Thrown exn, Full.Typed (FeatureCollection ((fs ++ [s]) ++ [e]))).
Proof.
  destruct start as [| |s]; [left; reflexivity | left; reflexivity |].
  destruct (point_or_not s) as [[sc Hs] | Hs].
  2: { left.
       rewrite (proj2 (proj2 (start_checked E T fuel options _ _)) s Hs).
       reflexivity. }
  destruct end_ as [| |e].
  1, 2: left; destruct Hs as [-> | ->]; reflexivity.
  destruct (point_or_not e) as [[ec He] | He].
  2: { left.
       rewrite (proj2 (proj2 (end_checked E T fuel options s sc _ Hs)) e He).
       reflexivity. }
  destruct st as [| |g].
  - left. rewrite (shortcut_taken E T fuel options s e sc ec _ Hs He);
      [reflexivity | left; reflexivity].
  - left. rewrite (proj1 (obstacles_checked E T fuel options s e sc ec Hs He)).
    reflexivity.
  - destruct g as [g|g|[|f fs]].
    + left.
      rewrite (proj2 (obstacles_checked E T fuel options s e sc ec Hs He));
        [reflexivity | discriminate].
    + left.
      rewrite (proj2 (obstacles_checked E T fuel options s e sc ec Hs He));
        [reflexivity | discriminate].
    + left. rewrite (shortcut_taken E T fuel options s e sc ec _ Hs He);
        [reflexivity | right; reflexivity].
    + destruct (Full.rejected E T (resolution (given options)))
        as [[]| | |] eqn:Hr;
        try (left;
             apply (stopped_at_resolution E T fuel options s e f sc ec fs
                      Hs He);
             rewrite Hr; discriminate).
      rewrite (shortestPath_from_push E T fuel s e f sc ec fs options
                 Hs He Hr).
      destruct (gridBox_outcome E T
                  (FeatureCollection (((f :: fs) ++ [s]) ++ [e])))
        as [(box & ->) | (c & exn & Hc & HT & ->)].
      * destruct (derived_outcome E T box (units_of (given options))
                    (resolution (given options)))
          as [(r & ->) | (c & exn & Hc & HT & ->)].
        -- left. reflexivity.
        -- right. exists s, e, (f :: fs), c, exn. repeat split; assumption.
      * right. exists s, e, (f :: fs), c, exn. repeat split; assumption.
Qed.

(** The end points are checked first, the start before the end: a falsy
    one is reported as required, one without a type as invalid, one of
    another type than Point as such, whatever the obstacles, the
    options and the collaborators, and the obstacle argument is left
    alone. *)
Theorem endpoints_validated (E : Env) (T : Full.Throws) (fuel : nat)
    (options : option Options) (st : Full.argument) :
  (forall end_,
      Full.shortestPath E T fuel Full.Falsy end_ options st
      = (Thrown (Error "start is required"), st)) /\
  (forall end_,
      Full.shortestPath E T fuel Full.Untyped end_ options st
      = (Thrown (Error "start is invalid"), st)) /\
  (forall s end_, (forall c, ~ PointAt s c) ->
      Full.shortestPath E T fuel (Full.Typed s) end_ options st
      = (Thrown (Error "start must be Point"), st)) /\
  (forall s sc, PointAt s sc ->
      Full.shortestPath E T fuel (Full.Typed s) Full.Falsy options st
      = (Thrown (Error "end is required"), st)) /\
  (forall s sc, PointAt s sc ->
      Full.shortestPath E T fuel (Full.Typed s) Full.Untyped options st
      = (Thrown (Error "end is invalid"), st)) /\
  (forall s sc e, PointAt s sc -> (forall c, ~ PointAt e c) ->
      Full.shortestPath E T fuel (Full.Typed s) (Full.Typed e) options st
      = (Thrown (Error "end must be Point"), st)).
Proof.
  split; [|split; [|split; [|split; [|split]]]].
  - intros end_. apply (start_checked E T fuel options end_ st).
  - intros end_. apply (start_checked E T fuel options end_ st).
  - intros s end_. apply (start_checked E T fuel options end_ st).
  - intros s sc Hs. apply (end_checked E T fuel options s sc st Hs).
  - intros s sc Hs. apply (end_checked E T fuel options s sc st Hs).
  - intros s sc e Hs. apply (end_checked E T fuel options s sc st Hs).
Qed.

(** With two Points, an obstacle argument that is truthy and has no type
    is reported as an invalid geojson, and one of another type than
    FeatureCollection as such, before the options are read and before
    any collaborator is called. *)
Theorem obstacles_validated (E : Env) (T : Full.Throws) (fuel : nat)
    (s e : GeoJSON) (sc ec : Position) (options : option Options) :
  PointAt s sc -> PointAt e ec ->
  Full.shortestPath E T fuel (Full.Typed s) (Full.Typed e) options
                    Full.Untyped
  = (Thrown (Error "geojson is invalid"), Full.Untyped) /\
  (forall g, (forall fs, g <> FeatureCollection fs) ->
     Full.shortestPath E T fuel (Full.Typed s) (Full.Typed e) options
                       (Full.Typed g)
     = (Thrown (Error "obstacles must be FeatureCollection"), Full.Typed g)).
Proof. apply obstacles_checked. Qed.

Lemma obstacles_validated_witness :
  Full.shortestPath Demo.env Demo.throws 0 (Full.Typed Demo.start)
                    (Full.Typed Demo.end_) (Demo.with_resolution (-1))
                    Full.Untyped
  = (Thrown (Error "geojson is invalid"), Full.Untyped) /\
  (forall g, (forall fs, g <> FeatureCollection fs) ->
     Full.shortestPath Demo.env Demo.throws 0 (Full.Typed Demo.start)
                       (Full.Typed Demo.end_) (Demo.with_resolution (-1))
                       (Full.Typed g)
     = (Thrown (Error "obstacles must be FeatureCollection"), Full.Typed g)).
Proof.
  apply (obstacles_validated Demo.env Demo.throws 0 Demo.start Demo.end_
           (-5, -6) (9, -6) (Demo.with_resolution (-1))).
  - left; reflexivity.
  - left; reflexivity.
Defined.

(** A query over a non-empty obstacle collection with two Points and an
    accepted resolution computes the box while the caller's collection
    holds the obstacles followed by the start and the end.  When
    [bbox], [bboxPolygon], [scale] and [distance] return, the two pops
    hand the collection back as it was and the rest of the query is
    lines 69-162 over the obstacles alone; when one of them throws, the
    query fails with that exception and the start and the end stay in
    the collection. *)
Theorem query_from_push_to_pop (E : Env) (T : Full.Throws) (fuel : nat)
    (s e f : GeoJSON) (sc ec : Position) (fs : list GeoJSON)
    (options : option Options) :
  PointAt s sc -> PointAt e ec ->
  Full.rejected E T (resolution (given options)) = Returned false ->
  let collection := FeatureCollection (((f :: fs) ++ [s]) ++ [e]) in
  let units := units_of (given options) in
  Full.shortestPath E T fuel (Full.Typed s) (Full.Typed e) options
                    (Full.Typed (FeatureCollection (f :: fs)))
  = match Full.gridBox E T collection with
    | Returned box =>
        match Full.derived E T box units (resolution (given options)) with
        | Returned r =>
            (Full.route E T fuel s e (f :: fs) box units r,
             Full.Typed (FeatureCollection (f :: fs)))
        | Thrown exn => (Thrown exn, Full.Typed collection)
        | NonFinite => (NonFinite, Full.Typed collection)
        | OutOfFuel => (OutOfFuel, Full.Typed collection)
        end
    | Thrown exn => (Thrown exn, Full.Typed collection)
    | NonFinite => (NonFinite, Full.Typed collection)
    | OutOfFuel => (OutOfFuel, Full.Typed collection)
    end.
Proof. apply shortestPath_from_push. Qed.

Lemma query_from_push_to_pop_witness :
  Full.shortestPath Demo.env Demo.throws 40 (Full.Typed Demo.start)
                    (Full.Typed Demo.end_) (Demo.with_resolution 2)
                    (Full.Typed Demo.obstacles)
  = match Full.gridBox Demo.env Demo.throws
            (FeatureCollection [Demo.rectangle; Demo.start; Demo.end_]) with
    | Returned box =>
        match Full.derived Demo.env Demo.throws box "kilometers"
                (VNumber 2) with
        | Returned r =>
            (Full.route Demo.env Demo.throws 40 Demo.start Demo.end_
               [Demo.rectangle] box "kilometers" r,
             Full.Typed Demo.obstacles)
        | Thrown exn =>
            (Thrown exn,
             Full.Typed (FeatureCollection
                           [Demo.rectangle; Demo.start; Demo.end_]))
        | NonFinite =>
            (NonFinite,
             Full.Typed (FeatureCollection
                           [Demo.rectangle; Demo.start; Demo.end_]))
        | OutOfFuel =>
            (OutOfFuel,
             Full.Typed (FeatureCollection
                           [Demo.rectangle; Demo.start; Demo.end_]))
        end
    | Thrown exn =>
        (Thrown exn,
         Full.Typed (FeatureCollection
                       [Demo.rectangle; Demo.start; Demo.end_]))
    | NonFinite =>
        (NonFinite,
         Full.Typed (FeatureCollection
                       [Demo.rectangle; Demo.start; Demo.end_]))
    | OutOfFuel =>
        (OutOfFuel,
         Full.Typed (FeatureCollection
                       [Demo.rectangle; Demo.start; Demo.end_]))
    end.
Proof.
  apply (query_from_push_to_pop Demo.env Demo.throws 40 Demo.start
           Demo.end_ Demo.rectangle (-5, -6) (9, -6) []
           (Demo.with_resolution 2)).
  - left; reflexivity.
  - left; reflexivity.
  - reflexivity.
Defined.

(* ===================================================================== *)
(** * The node counts in binary64 *)
(* ===================================================================== *)

Section Binary64Facts.
Import PrimFloat.
Local Open Scope float_scope.
#[local] Set Warnings "-inexact-float".


End Binary64Facts.
